(** * Structural directives [NgIf] and [NgForOf], and the sass-loader options schema

    A shallow embedding of
    - [@angular/common/esm2020/src/directives/ng_if.mjs],
    - [@angular/common/esm2020/src/directives/ng_for_of.mjs],
    - [sass-loader/dist/options.json],
    together with the properties stated about them.

    JavaScript objects that the directives mutate (the directive instance, its
    view container, the template contexts) are threaded explicitly through a
    small state-and-exception monad; objects that are shared by reference (a
    template context reachable both from the directive and from the views made
    from it) are represented by their address. *)

From Stdlib Require Import ZArith Bool.
From stdpp Require Import base option list strings.

Set Warnings "-register-all".

(* ===================================================================== *)
(** ** JavaScript values *)
(* ===================================================================== *)

Module Js.

(** The values the directives receive through their inputs.  Numbers are the
    integral ones plus [NaN] (a fraction behaves like a non-zero integer
    everywhere below); [JsNumber 0] stands for both zeros.  Objects and
    functions carry the properties visible through them, prototype chain
    included. *)
Inductive JsValue : Type :=
| JsUndefined
| JsNull
| JsBoolean (b : bool)
| JsNaN
| JsNumber (z : Z)
| JsBigInt (z : Z)
| JsString (s : string)
| JsFunction (name : string) (props : list (string * JsValue))
| JsArray (elems : list JsValue)
| JsObject (props : list (string * JsValue)).

(** [ToBoolean]: what [if (v)], [!v] and [v && ...] test. *)
Definition truthy (v : JsValue) : bool :=
  match v with
  | JsUndefined | JsNull | JsNaN => false
  | JsBoolean b => b
  | JsNumber z | JsBigInt z => negb (z =? 0)%Z
  | JsString s => negb (String.eqb s "")
  | JsFunction _ _ | JsArray _ | JsObject _ => true
  end.

(** [v == null]. *)
Definition is_nullish (v : JsValue) : bool :=
  match v with
  | JsUndefined | JsNull => true
  | _ => false
  end.

(** [typeof v]. *)
Definition typeof (v : JsValue) : string :=
  match v with
  | JsUndefined => "undefined"
  | JsNull => "object"
  | JsBoolean _ => "boolean"
  | JsNaN | JsNumber _ => "number"
  | JsBigInt _ => "bigint"
  | JsString _ => "string"
  | JsFunction _ _ => "function"
  | JsArray _ | JsObject _ => "object"
  end.

Fixpoint lookup_property (name : string) (props : list (string * JsValue))
  : option JsValue :=
  match props with
  | [] => None
  | (k, x) :: rest => if String.eqb k name then Some x else lookup_property name rest
  end.

(** The named properties reachable through a value.  A primitive is read
    through its wrapper, which has none of the names used here. *)
Definition properties_of (v : JsValue) : list (string * JsValue) :=
  match v with
  | JsFunction _ props | JsObject props => props
  | _ => []
  end.


(** [v.name] for a [v] that is neither [null] nor [undefined]. *)
Definition get_property (v : JsValue) (name : string) : JsValue :=
  match lookup_property name (properties_of v) with
  | Some x => x
  | None => JsUndefined
  end.

(** Values that are not objects. *)
Definition is_primitive (v : JsValue) : bool :=
  match v with
  | JsFunction _ _ | JsArray _ | JsObject _ => false
  | _ => true
  end.

(** Whether [JSON.stringify(v)] may run a [toJSON] method: some object within
    [v] has a member of that name that is a function. *)
Fixpoint has_toJSON (v : JsValue) : bool :=
  match v with
  | JsFunction _ props | JsObject props =>
      existsb (fun p => (String.eqb (fst p) "toJSON"
                         && String.eqb (typeof (snd p)) "function")
                        || has_toJSON (snd p)) props
  | JsArray elems => existsb has_toJSON elems
  | _ => false
  end.

(** Whether [JSON.stringify(v)] returns, for a [v] without [toJSON] methods:
    serialising a BigInt, at any depth, is a [TypeError].  (Values here are
    trees, so there is no cycle to reject; function-valued members are
    skipped by the serialiser.) *)
Fixpoint JSON_stringify_returns (v : JsValue) : bool :=
  match v with
  | JsBigInt _ => false
  | JsArray elems => forallb JSON_stringify_returns elems
  | JsObject props => forallb (fun p => JSON_stringify_returns (snd p)) props
  | _ => true
  end.

(** What a [throw] carries. *)
Inductive JsError : Type :=
| MustBeTemplateRef (property : string) (received : JsValue)
    (* Error(`${property} must be a TemplateRef, but received '...'.`) *)
| NgForOnlySupportsIterables (value : JsValue)
    (* Error(`Cannot find a differ supporting object '...' of type '...'.
              NgFor only supports binding to Iterables such as Arrays.`) *)
| TypeError (what : string)
    (* raised by the language itself *)
| HostError (what : string).
    (* raised while code runs that this file calls and does not hold:
       @angular/core, the console, the conversion of an object it was given;
       whatever the class of the error, its description alone is kept *)

(** How a statement ends. *)
Inductive Completion (A : Type) : Type :=
| Normal (a : A)
| Throw (e : JsError).
Arguments Normal {A} a.
Arguments Throw {A} e.

(** How a call into code that is not in this file ends: it returns, or it
    raises an error of its own. *)
Inductive HostResult (A : Type) : Type :=
| Returned (a : A)
| Raised (what : string).
Arguments Returned {A} a.
Arguments Raised {A} what.

Definition from_host {A} (r : HostResult A) : Completion A :=
  match r with
  | Returned a => Normal a
  | Raised what => Throw (HostError what)
  end.

Definition completed {A} (c : Completion A) : bool :=
  match c with Normal _ => true | Throw _ => false end.

(** Code running against a mutable object of type [S].  A [throw] keeps the
    mutations made before it. *)
Definition Eff (S A : Type) : Type := S -> Completion A * S.

Definition ret {S A} (a : A) : Eff S A := fun s => (Normal a, s).

Definition bind {S A B} (m : Eff S A) (k : A -> Eff S B) : Eff S B :=
  fun s =>
    match m s with
    | (Normal a, s') => k a s'
    | (Throw e, s') => (Throw e, s')
    end.

Definition throw {S A} (e : JsError) : Eff S A := fun s => (Throw e, s).

Definition this {S} : Eff S S := fun s => (Normal s, s).

Definition assign {S} (f : S -> S) : Eff S unit := fun s => (Normal tt, f s).

(** [try { m } catch { handler }]; the handler does not look at the error,
    and what [m] had written before it threw stays written. *)
Definition try_catch {S A} (m handler : Eff S A) : Eff S A :=
  fun s =>
    match m s with
    | (Normal a, s') => (Normal a, s')
    | (Throw _, s') => handler s'
    end.

(** The result of a call that changes nothing here. *)
Definition lift {S A} (c : Completion A) : Eff S A := fun s => (c, s).

(** Run [m] on a component of the state. *)
Definition zoom {S T A} (proj : S -> T) (inj : T -> S -> S) (m : Eff T A)
  : Eff S A :=
  fun s => let '(r, t') := m (proj s) in (r, inj t' s).

(** [for (const x of xs) body(x)]. *)
Fixpoint for_each {S A} (body : A -> Eff S unit) (xs : list A) : Eff S unit :=
  match xs with
  | [] => ret tt
  | x :: rest => bind (body x) (fun _ => for_each body rest)
  end.

(** The two halves of a run, and whether it ended in a [throw]. *)
Definition state_after {S A} (r : Completion A * S) : S := snd r.
Definition outcome {S A} (r : Completion A * S) : Completion A := fst r.
Definition throws {S A} (r : Completion A * S) : bool := negb (completed (fst r)).

(** Errors that come from the language or from the host, not from a [throw]
    written in the directives. *)
Definition from_below (e : JsError) : Prop :=
  match e with
  | TypeError _ | HostError _ => True
  | MustBeTemplateRef _ _ | NgForOnlySupportsIterables _ => False
  end.

(** [m] throws nothing but such errors. *)
Definition quiet {S A} (m : Eff S A) : Prop :=
  forall s e, outcome (m s) = Throw e -> from_below e.

(** Every run of [m] takes a state to one that [R] relates to it, however
    the run ends. *)
Definition respects {S A} (R : S -> S -> Prop) (m : Eff S A) : Prop :=
  forall s, R s (state_after (m s)).

Module Notations.
Declare Scope js_scope.
Delimit Scope js_scope with js.
Notation "x <- m ;; k" := (bind m (fun x => k))
  (at level 100, m at next level, k at level 200, right associativity) : js_scope.
Notation "m ;; k" := (bind m (fun _ => k))
  (at level 100, k at level 200, right associativity) : js_scope.
End Notations.

End Js.

Import Js Js.Notations.

(* ===================================================================== *)
(** ** The host's view container *)
(* ===================================================================== *)

(** [ViewContainerRef] and [EmbeddedViewRef] belong to @angular/core: the
    directives only call them.  The container is taken to be the ordered list
    of the views attached to it, and every method call it receives is
    recorded.  Index arguments outside the container are rejected by the
    host, and so is a template that is not there. *)
Module ViewContainerRef.

(** The address of a context object. *)
Definition ObjRef : Type := nat.

(** Modelled from the spec: an embedded view of the host ("embedded view
    creation"), as far as the directives can tell views apart. *)
Record EmbeddedViewRef : Type := {
  view_id : nat;              (* identity of the view object *)
  view_template : JsValue;    (* the template it was made from *)
  context : ObjRef            (* [viewRef.context], by reference *)
}.

(** A method call received by the container, with its arguments. *)
Inductive Call : Type :=
| clear_call
| createEmbeddedView_call (templateRef : JsValue) (ctx : ObjRef) (index : option nat)
| remove_call (index : option nat)
| get_call (index : option nat)
| move_call (view : option EmbeddedViewRef) (currentIndex : nat).

(** Modelled from the spec: the host's view container ("view container
    mutation"), which the source receives as [_viewContainer] and never
    defines. *)
Record t : Type := {
  views : list EmbeddedViewRef;
  next_view_id : nat;         (* identity of the next view to be created *)
  calls : list Call           (* oldest first *)
}.

Definition empty : t := {| views := []; next_view_id := 0; calls := [] |}.

Definition record (c : Call) (vc : t) : t :=
  {| views := views vc; next_view_id := next_view_id vc; calls := calls vc ++ [c] |}.

Definition with_views (vs : list EmbeddedViewRef) (vc : t) : t :=
  {| views := vs; next_view_id := next_view_id vc; calls := calls vc |}.

(** [viewContainer.length]. *)
Definition length (vc : t) : nat := List.length (views vc).

(** [viewContainer.clear()] detaches every view. *)
Definition clear : Eff t unit :=
  fun vc => (Normal tt, with_views [] (record clear_call vc)).

Definition insert_at {A} (i : nat) (x : A) (l : list A) : list A :=
  take i l ++ x :: drop i l.

(** [viewContainer.createEmbeddedView(templateRef, context, index)] makes a
    new view on [context] and attaches it at [index], or at the end when
    [index] is [undefined]; it returns the view.  A falsy [templateRef] is no
    template: the host has nothing to instantiate, and the call throws before
    any view is made. *)
Definition createEmbeddedView (templateRef : JsValue) (ctx : ObjRef)
    (index : option nat) : Eff t EmbeddedViewRef :=
  fun vc =>
    let vc := record (createEmbeddedView_call templateRef ctx index) vc in
    let view := {| view_id := next_view_id vc; view_template := templateRef; context := ctx |} in
    let i := default (List.length (views vc)) index in
    if truthy templateRef then
      if (i <=? List.length (views vc))%nat then
        (Normal view,
         {| views := insert_at i view (views vc);
            next_view_id := S (next_view_id vc);
            calls := calls vc |})
      else (Throw (HostError "index out of range"), vc)
    else (Throw (TypeError "templateRef.createEmbeddedView is not a function"), vc).

(** [viewContainer.remove(index)] detaches the view at [index], or the last
    one when [index] is [undefined]. *)
Definition remove (index : option nat) : Eff t unit :=
  fun vc =>
    let vc := record (remove_call index) vc in
    let i := default (List.length (views vc) - 1)%nat index in
    if (i <? List.length (views vc))%nat then
      (Normal tt, with_views (delete i (views vc)) vc)
    else (Throw (HostError "index out of range"), vc).

(** [viewContainer.get(index)] answers the view at [index], or [null]
    outside the container. *)
Definition get (index : option nat) : Eff t (option EmbeddedViewRef) :=
  fun vc =>
    (Normal (i ← index; views vc !! i), record (get_call index) vc).

(** Where the view object with identity [id] sits. *)
Fixpoint indexOf (id : nat) (l : list EmbeddedViewRef) : option nat :=
  match l with
  | [] => None
  | v :: rest => if (view_id v =? id)%nat then Some 0%nat else S <$> indexOf id rest
  end.

(** [viewContainer.move(view, currentIndex)] takes the view out of its place
    and puts that same object back at [currentIndex]. *)
Definition move (view : option EmbeddedViewRef) (currentIndex : nat)
  : Eff t unit :=
  fun vc =>
    let vc := record (move_call view currentIndex) vc in
    match view with
    | None => (Throw (TypeError "view is null"), vc)
    | Some v =>
        match indexOf (view_id v) (views vc) with
        | None => (Throw (HostError "view is not attached"), vc)
        | Some from =>
            let rest := delete from (views vc) in
            if (currentIndex <=? List.length rest)%nat then
              (Normal tt,
               with_views (insert_at currentIndex (default v (views vc !! from)) rest) vc)
            else (Throw (HostError "index out of range"), vc)
        end
    end.

End ViewContainerRef.

(** [!ref], for a reference that is an object or [null]. *)
Definition is_null {A} (o : option A) : bool :=
  match o with None => true | Some _ => false end.

(* ===================================================================== *)
(** ** ng_if.mjs *)
(* ===================================================================== *)

Module ng_if.

Import ViewContainerRef (EmbeddedViewRef, ObjRef).

(** [class NgIfContext]; [implicit] is the field [$implicit]. *)
Record NgIfContext : Type := {
  implicit : JsValue;
  ngIf : JsValue
}.

(** [class NgIf].  [_context] holds the fields of the one context object the
    constructor allocates, living at [_context_address]; every view the
    directive creates receives that address, so the views and the directive
    see the same object.  A view reference is [None] when it is [null]. *)
Record NgIf : Type := {
  _viewContainer : ViewContainerRef.t;
  _context : NgIfContext;
  _context_address : ObjRef;
  _thenTemplateRef : JsValue;
  _elseTemplateRef : JsValue;
  _thenViewRef : option EmbeddedViewRef;
  _elseViewRef : option EmbeddedViewRef
}.

Definition with_viewContainer (vc : ViewContainerRef.t) (self : NgIf) : NgIf :=
  {| _viewContainer := vc; _context := _context self;
     _context_address := _context_address self;
     _thenTemplateRef := _thenTemplateRef self;
     _elseTemplateRef := _elseTemplateRef self;
     _thenViewRef := _thenViewRef self; _elseViewRef := _elseViewRef self |}.

Definition with_context (c : NgIfContext) (self : NgIf) : NgIf :=
  {| _viewContainer := _viewContainer self; _context := c;
     _context_address := _context_address self;
     _thenTemplateRef := _thenTemplateRef self;
     _elseTemplateRef := _elseTemplateRef self;
     _thenViewRef := _thenViewRef self; _elseViewRef := _elseViewRef self |}.

Definition with_thenTemplateRef (t : JsValue) (self : NgIf) : NgIf :=
  {| _viewContainer := _viewContainer self; _context := _context self;
     _context_address := _context_address self;
     _thenTemplateRef := t;
     _elseTemplateRef := _elseTemplateRef self;
     _thenViewRef := _thenViewRef self; _elseViewRef := _elseViewRef self |}.

Definition with_elseTemplateRef (t : JsValue) (self : NgIf) : NgIf :=
  {| _viewContainer := _viewContainer self; _context := _context self;
     _context_address := _context_address self;
     _thenTemplateRef := _thenTemplateRef self;
     _elseTemplateRef := t;
     _thenViewRef := _thenViewRef self; _elseViewRef := _elseViewRef self |}.

Definition with_thenViewRef (v : option EmbeddedViewRef) (self : NgIf) : NgIf :=
  {| _viewContainer := _viewContainer self; _context := _context self;
     _context_address := _context_address self;
     _thenTemplateRef := _thenTemplateRef self;
     _elseTemplateRef := _elseTemplateRef self;
     _thenViewRef := v; _elseViewRef := _elseViewRef self |}.

Definition with_elseViewRef (v : option EmbeddedViewRef) (self : NgIf) : NgIf :=
  {| _viewContainer := _viewContainer self; _context := _context self;
     _context_address := _context_address self;
     _thenTemplateRef := _thenTemplateRef self;
     _elseTemplateRef := _elseTemplateRef self;
     _thenViewRef := _thenViewRef self; _elseViewRef := v |}.

(** [this._viewContainer.method(...)]. *)
Definition viewContainer {A} (method : Eff ViewContainerRef.t A) : Eff NgIf A :=
  zoom _viewContainer with_viewContainer method.

(** [constructor(_viewContainer, templateRef)]; [address] is where
    [new NgIfContext()] puts the context. *)
Definition constructor (_viewContainer : ViewContainerRef.t)
    (templateRef : JsValue) (address : ObjRef) : NgIf :=
  {| _viewContainer := _viewContainer;
     _context := {| implicit := JsNull; ngIf := JsNull |};
     _context_address := address;
     _thenTemplateRef := templateRef;
     _elseTemplateRef := JsNull;
     _thenViewRef := None;
     _elseViewRef := None |}.

(** What the file imports from @angular/core and calls: [stringify], which
    the source receives and never defines.  It is taken as a parameter: a
    function of the value that returns a string or raises. *)
Record Core : Type := {
  stringify : JsValue -> HostResult string
}.

(** [function assertTemplate(property, templateRef)].  The message of the
    Error is built first, and building it calls [stringify]. *)
Definition assertTemplate {S} (core : Core) (property : string)
    (templateRef : JsValue) : Eff S unit :=
  let isTemplateRefOrNull :=
    negb (negb (negb (truthy templateRef)
                || truthy (get_property templateRef "createEmbeddedView"))) in
  if negb isTemplateRefOrNull
  then
    (_ <- lift (from_host (stringify core templateRef)) ;;
     throw (MustBeTemplateRef property templateRef))%js
  else ret tt.

(** [_updateView()]. *)
Definition _updateView : Eff NgIf unit :=
  (self <- this ;;
   if truthy (implicit (_context self)) then
     if is_null (_thenViewRef self) then
       viewContainer ViewContainerRef.clear ;;
       assign (with_elseViewRef None) ;;
       if truthy (_thenTemplateRef self) then
         view <- viewContainer
                   (ViewContainerRef.createEmbeddedView
                      (_thenTemplateRef self) (_context_address self) None) ;;
         assign (with_thenViewRef (Some view))
       else ret tt
     else ret tt
   else
     if is_null (_elseViewRef self) then
       viewContainer ViewContainerRef.clear ;;
       assign (with_thenViewRef None) ;;
       if truthy (_elseTemplateRef self) then
         view <- viewContainer
                   (ViewContainerRef.createEmbeddedView
                      (_elseTemplateRef self) (_context_address self) None) ;;
         assign (with_elseViewRef (Some view))
       else ret tt
     else ret tt)%js.

(** [set ngIf(condition)]: the chained assignment writes [ngIf], then
    [$implicit]. *)
Definition set_ngIf (condition : JsValue) : Eff NgIf unit :=
  (assign (fun self =>
     with_context {| implicit := implicit (_context self); ngIf := condition |} self) ;;
   assign (fun self =>
     with_context {| implicit := condition; ngIf := ngIf (_context self) |} self) ;;
   _updateView)%js.

(** [set ngIfThen(templateRef)]. *)
Definition set_ngIfThen (core : Core) (templateRef : JsValue) : Eff NgIf unit :=
  (assertTemplate core "ngIfThen" templateRef ;;
   assign (with_thenTemplateRef templateRef) ;;
   assign (with_thenViewRef None) ;;
   _updateView)%js.

(** [set ngIfElse(templateRef)]. *)
Definition set_ngIfElse (core : Core) (templateRef : JsValue) : Eff NgIf unit :=
  (assertTemplate core "ngIfElse" templateRef ;;
   assign (with_elseTemplateRef templateRef) ;;
   assign (with_elseViewRef None) ;;
   _updateView)%js.

(** One invocation of an input setter. *)
Inductive Input : Type :=
| ngIf_input (condition : JsValue)
| ngIfThen_input (templateRef : JsValue)
| ngIfElse_input (templateRef : JsValue).

Definition set_input (core : Core) (i : Input) : Eff NgIf unit :=
  match i with
  | ngIf_input c => set_ngIf c
  | ngIfThen_input t => set_ngIfThen core t
  | ngIfElse_input t => set_ngIfElse core t
  end.

(** The directive after a sequence of setter invocations; an invocation that
    throws leaves behind whatever it had done, and the next one goes on from
    there. *)
Definition run (core : Core) (inputs : list Input) (self : NgIf) : NgIf :=
  foldl (fun s i => state_after (set_input core i s)) self inputs.

(** The states the directive can be in: built by the constructor, then driven
    through its setters. *)
Inductive reachable : NgIf -> Prop :=
| reachable_constructor vc templateRef address :
    reachable (constructor vc templateRef address)
| reachable_set_input core i self :
    reachable self -> reachable (state_after (set_input core i self)).

(** The calls the container received between an earlier and a later state. *)
Definition calls_since (before after : NgIf) : list ViewContainerRef.Call :=
  drop (List.length (ViewContainerRef.calls (_viewContainer before)))
       (ViewContainerRef.calls (_viewContainer after)).

Definition is_createEmbeddedView (c : ViewContainerRef.Call) : bool :=
  match c with
  | ViewContainerRef.createEmbeddedView_call _ _ _ => true
  | _ => false
  end.

(** The directive and its container without the record of past calls. *)
Definition forget_calls (self : NgIf) : NgIf :=
  with_viewContainer
    {| ViewContainerRef.views := ViewContainerRef.views (_viewContainer self);
       ViewContainerRef.next_view_id := ViewContainerRef.next_view_id (_viewContainer self);
       ViewContainerRef.calls := [] |} self.

(** Two directives in equal states: same context (hence same condition), same
    template references, same cached view references, same container
    contents.  Only the calls their containers received in the past may
    differ. *)
Definition same_state (a b : NgIf) : Prop := forget_calls a = forget_calls b.

(** At most one of the two cached view references is set. *)
Definition at_most_one_view_ref (self : NgIf) : Prop :=
  _thenViewRef self = None \/ _elseViewRef self = None.

(** What can be seen of the directive from outside: the views in the
    container, each as the template it instantiates and the context object it
    is bound to, and the fields of the context. *)
Definition observe (self : NgIf) : list (JsValue * ObjRef) * NgIfContext :=
  ((fun v => (ViewContainerRef.view_template v, ViewContainerRef.context v))
     <$> ViewContainerRef.views (_viewContainer self),
   _context self).

(** The cache agrees with the container: the reference of the branch not
    taken is null, and a cached view of the branch taken is the only view in
    the container and instantiates the current template of that branch. *)
Definition cache_coherent (self : NgIf) : Prop :=
  if truthy (implicit (_context self)) then
    _elseViewRef self = None
    /\ (is_null (_thenViewRef self) = false ->
        fst (observe self) = [(_thenTemplateRef self, _context_address self)]
        /\ truthy (_thenTemplateRef self) = true)
  else
    _thenViewRef self = None
    /\ (is_null (_elseViewRef self) = false ->
        fst (observe self) = [(_elseTemplateRef self, _context_address self)]
        /\ truthy (_elseTemplateRef self) = true).

(** *** The stateless rule

    The rule the cached [_updateView] is compared with, following the words
    of the specification: on each update clear the container, then
    instantiate the then-template exactly when the condition is truthy, and
    the else-template exactly when the condition is falsy and an else-template
    is set.  It neither reads nor writes the cached view references. *)
Definition stateless_updateView : Eff NgIf unit :=
  (viewContainer ViewContainerRef.clear ;;
   self <- this ;;
   if truthy (implicit (_context self)) then
     _ <- viewContainer
            (ViewContainerRef.createEmbeddedView
               (_thenTemplateRef self) (_context_address self) None) ;;
     ret tt
   else if truthy (_elseTemplateRef self) then
     _ <- viewContainer
            (ViewContainerRef.createEmbeddedView
               (_elseTemplateRef self) (_context_address self) None) ;;
     ret tt
   else ret tt)%js.

(** The setters with the update rule replaced by [update]. *)
Definition stateless_set_input (core : Core) (update : Eff NgIf unit) (i : Input)
  : Eff NgIf unit :=
  match i with
  | ngIf_input condition =>
      (assign (fun self =>
         with_context {| implicit := implicit (_context self); ngIf := condition |} self) ;;
       assign (fun self =>
         with_context {| implicit := condition; ngIf := ngIf (_context self) |} self) ;;
       update)%js
  | ngIfThen_input templateRef =>
      (assertTemplate core "ngIfThen" templateRef ;;
       assign (with_thenTemplateRef templateRef) ;;
       update)%js
  | ngIfElse_input templateRef =>
      (assertTemplate core "ngIfElse" templateRef ;;
       assign (with_elseTemplateRef templateRef) ;;
       update)%js
  end.

Definition stateless_run (core : Core) (update : Eff NgIf unit)
    (inputs : list Input) (self : NgIf) : NgIf :=
  foldl (fun s i => state_after (stateless_set_input core update i s)) self inputs.

(** A directive running the cached [_updateView] and one running the
    stateless rule, in step. *)
Definition in_step (cached stateless : NgIf) : Prop :=
  cache_coherent cached
  /\ observe cached = observe stateless
  /\ _thenTemplateRef cached = _thenTemplateRef stateless
  /\ _elseTemplateRef cached = _elseTemplateRef stateless
  /\ _context_address cached = _context_address stateless.

(** What the condition and the two templates call for: one view of the
    template of the branch taken, bound to the directive's context, or no
    view when that branch has no template. *)
Definition called_for (self : NgIf) : list (JsValue * ObjRef) :=
  if truthy (implicit (_context self)) then
    if truthy (_thenTemplateRef self)
    then [(_thenTemplateRef self, _context_address self)] else []
  else
    if truthy (_elseTemplateRef self)
    then [(_elseTemplateRef self, _context_address self)] else [].

(** A cached view reference is the one view in the container. *)
Definition cached_is_attached (self : NgIf) : Prop :=
  (forall v, _thenViewRef self = Some v ->
             ViewContainerRef.views (_viewContainer self) = [v])
  /\ (forall v, _elseViewRef self = Some v ->
                ViewContainerRef.views (_viewContainer self) = [v]).

(** [assertTemplate] lets [templateRef] through. *)
Definition accepted (templateRef : JsValue) : bool :=
  negb (truthy templateRef) || truthy (get_property templateRef "createEmbeddedView").

(** The setter invoked by [i] gets past its assertion. *)
Definition input_accepted (i : Input) : bool :=
  match i with
  | ngIf_input _ => true
  | ngIfThen_input templateRef | ngIfElse_input templateRef => accepted templateRef
  end.

(** [static ngTemplateContextGuard(dir, ctx)]. *)
Definition ngTemplateContextGuard (dir : NgIf) (ctx : JsValue) : bool := true.

End ng_if.

(* ===================================================================== *)
(** ** ng_for_of.mjs *)
(* ===================================================================== *)

Module ng_for_of.

Import ViewContainerRef (EmbeddedViewRef, ObjRef).

(** [class NgForOfContext]; [implicit] is the field [$implicit].  [index] and
    [count] are the integers the directive writes: [-1] at creation, then a
    position and a length. *)
Record NgForOfContext : Type := {
  implicit : JsValue;
  ngForOf : JsValue;
  index : Z;
  count : Z
}.

(** [get first()]. *)
Definition first (this : NgForOfContext) : bool := (index this =? 0)%Z.

(** The double that an arithmetic operation returns when its exact result is
    the integer [z]: [z] rounded to 53 significant bits, ties to the even
    one.  (Subtracting one from a finite double never leaves the range.) *)
Definition to_double (z : Z) : Z :=
  let a := Z.abs z in
  let shift := (Z.log2 a - 52)%Z in
  if (shift <=? 0)%Z then z
  else
    let ulp := (2 ^ shift)%Z in
    let q := (a / ulp)%Z in
    let r := (a mod ulp)%Z in
    let q' :=
      if (2 * r <? ulp)%Z then q
      else if (ulp <? 2 * r)%Z then (q + 1)%Z
      else if Z.even q then q else (q + 1)%Z in
    (Z.sgn z * (q' * ulp))%Z.

(** An integer that a double holds. *)
Definition is_double (z : Z) : Prop := to_double z = z.

(** [get last()]; the subtraction is one of doubles. *)
Definition last (this : NgForOfContext) : bool :=
  (index this =? to_double (count this - 1))%Z.

(** [get even()]; the remainder operator takes the sign of the dividend. *)
Definition even (this : NgForOfContext) : bool :=
  (Z.rem (index this) 2 =? 0)%Z.

(** [get odd()]. *)
Definition odd (this : NgForOfContext) : bool := negb (even this).

Definition set_implicit (v : JsValue) (c : NgForOfContext) : NgForOfContext :=
  {| implicit := v; ngForOf := ngForOf c; index := index c; count := count c |}.
Definition set_ngForOf_field (v : JsValue) (c : NgForOfContext) : NgForOfContext :=
  {| implicit := implicit c; ngForOf := v; index := index c; count := count c |}.
Definition set_index (i : Z) (c : NgForOfContext) : NgForOfContext :=
  {| implicit := implicit c; ngForOf := ngForOf c; index := i; count := count c |}.
Definition set_count (n : Z) (c : NgForOfContext) : NgForOfContext :=
  {| implicit := implicit c; ngForOf := ngForOf c; index := index c; count := n |}.

(** *** What @angular/core hands to the directive *)

(** Modelled from the spec: the records, changes and differs of the host
    ("differs"), which the source receives and never defines.
    [IterableChangeRecord] first. *)
Record IterableChangeRecord : Type := {
  item : JsValue;
  previousIndex : option nat;
  currentIndex : option nat
}.

(** [IterableChanges]: [operations] lists the argument triples
    [(item, adjustedPreviousIndex, currentIndex)] that [forEachOperation]
    passes to its callback, [identityChanges] the records that
    [forEachIdentityChange] passes. *)
Record IterableChanges : Type := {
  operations : list (IterableChangeRecord * option nat * option nat);
  identityChanges : list IterableChangeRecord
}.

(** [IterableDiffer]: an object with private state and a [diff] method, which
    answers the changes or [null]. *)
Record IterableDiffer : Type := {
  differ_state : JsValue;
  differ_diff : JsValue -> JsValue -> HostResult (option IterableChanges) * JsValue
}.

(** [differ.diff(value)]. *)
Definition diff (value : JsValue) : Eff IterableDiffer (option IterableChanges) :=
  fun d =>
    let '(r, st) := differ_diff d value (differ_state d) in
    (from_host r, {| differ_state := st; differ_diff := differ_diff d |}).

(** [IterableDifferFactory] and the registry [IterableDiffers]; [find] throws
    when no factory supports the value. *)
Record IterableDifferFactory : Type := {
  create : JsValue -> HostResult IterableDiffer
}.

Record IterableDiffers : Type := {
  find : JsValue -> HostResult IterableDifferFactory
}.

(** What the file finds around it.  The globals it reads: [ngDevMode]
    ([None] when it is not declared) and [console].  And how the code ends
    that it has run without holding it, a [JsValue] carrying no code: the
    [toString] and [valueOf] of an object that a template literal converts,
    the [toJSON] methods that [JSON.stringify] meets, and [console.warn].
    Such code returns or raises; it is taken not to reach the directive. *)
Record Globals : Type := {
  ngDevMode : option JsValue;
  console : JsValue;
  run_toString : JsValue -> HostResult string;
    (* the object converted *)
  run_toJSON : JsValue -> HostResult string;
    (* the value serialised *)
  run_warn : JsValue -> HostResult unit
    (* the value the warning is about *)
}.

(** [typeof ngDevMode === 'undefined' || ngDevMode]. *)
Definition dev_mode (env : Globals) : bool :=
  match ngDevMode env with
  | None => true
  | Some v => String.eqb (typeof v) "undefined" || truthy v
  end.

(** *** The directive *)

(** [class NgForOf], with the two things its methods reach besides its own
    fields: the context objects it has allocated ([heap], an object's address
    being its position) and the warnings [console.warn] has taken from it
    ([warned], each as the value it is about). *)
Record NgForOf : Type := {
  _viewContainer : ViewContainerRef.t;
  _template : JsValue;
  _differs : IterableDiffers;
  _ngForOf : JsValue;
  _ngForOfDirty : bool;
  _differ : option IterableDiffer;
  _trackByFn : JsValue;
  heap : list NgForOfContext;
  warned : list JsValue
}.

Definition with_viewContainer (vc : ViewContainerRef.t) (self : NgForOf) : NgForOf :=
  {| _viewContainer := vc; _template := _template self; _differs := _differs self;
     _ngForOf := _ngForOf self; _ngForOfDirty := _ngForOfDirty self;
     _differ := _differ self; _trackByFn := _trackByFn self;
     heap := heap self; warned := warned self |}.

Definition with_template (t : JsValue) (self : NgForOf) : NgForOf :=
  {| _viewContainer := _viewContainer self; _template := t; _differs := _differs self;
     _ngForOf := _ngForOf self; _ngForOfDirty := _ngForOfDirty self;
     _differ := _differ self; _trackByFn := _trackByFn self;
     heap := heap self; warned := warned self |}.

Definition with_ngForOf (v : JsValue) (self : NgForOf) : NgForOf :=
  {| _viewContainer := _viewContainer self; _template := _template self;
     _differs := _differs self;
     _ngForOf := v; _ngForOfDirty := _ngForOfDirty self;
     _differ := _differ self; _trackByFn := _trackByFn self;
     heap := heap self; warned := warned self |}.

Definition with_ngForOfDirty (b : bool) (self : NgForOf) : NgForOf :=
  {| _viewContainer := _viewContainer self; _template := _template self;
     _differs := _differs self;
     _ngForOf := _ngForOf self; _ngForOfDirty := b;
     _differ := _differ self; _trackByFn := _trackByFn self;
     heap := heap self; warned := warned self |}.

Definition with_differ (d : option IterableDiffer) (self : NgForOf) : NgForOf :=
  {| _viewContainer := _viewContainer self; _template := _template self;
     _differs := _differs self;
     _ngForOf := _ngForOf self; _ngForOfDirty := _ngForOfDirty self;
     _differ := d; _trackByFn := _trackByFn self;
     heap := heap self; warned := warned self |}.

Definition with_trackByFn (fn : JsValue) (self : NgForOf) : NgForOf :=
  {| _viewContainer := _viewContainer self; _template := _template self;
     _differs := _differs self;
     _ngForOf := _ngForOf self; _ngForOfDirty := _ngForOfDirty self;
     _differ := _differ self; _trackByFn := fn;
     heap := heap self; warned := warned self |}.

Definition with_heap (h : list NgForOfContext) (self : NgForOf) : NgForOf :=
  {| _viewContainer := _viewContainer self; _template := _template self;
     _differs := _differs self;
     _ngForOf := _ngForOf self; _ngForOfDirty := _ngForOfDirty self;
     _differ := _differ self; _trackByFn := _trackByFn self;
     heap := h; warned := warned self |}.

Definition with_warned (w : list JsValue) (self : NgForOf) : NgForOf :=
  {| _viewContainer := _viewContainer self; _template := _template self;
     _differs := _differs self;
     _ngForOf := _ngForOf self; _ngForOfDirty := _ngForOfDirty self;
     _differ := _differ self; _trackByFn := _trackByFn self;
     heap := heap self; warned := w |}.

(** [viewContainer.method(...)]. *)
Definition viewContainer {A} (method : Eff ViewContainerRef.t A) : Eff NgForOf A :=
  zoom _viewContainer with_viewContainer method.

(** [`${v}`], the conversion a template literal applies to [v].  A primitive
    is converted by the language alone (there is no Symbol among the
    values); an object, array or function by its own methods. *)
Definition to_string {S} (env : Globals) (v : JsValue) : Eff S unit :=
  if is_primitive v then ret tt
  else (_ <- lift (from_host (run_toString env v)) ;; ret tt)%js.

(** [JSON.stringify(v)]: where [toJSON] methods are met, how it ends is
    theirs to decide; elsewhere it fails on a BigInt and on nothing else. *)
Definition JSON_stringify {S} (env : Globals) (v : JsValue) : Eff S unit :=
  if has_toJSON v then (_ <- lift (from_host (run_toJSON env v)) ;; ret tt)%js
  else if JSON_stringify_returns v then ret tt
  else throw (TypeError "JSON.stringify cannot serialize the value").

(** [constructor(_viewContainer, _template, _differs)]; [_trackByFn] is not
    initialised and reads as [undefined]. *)
Definition constructor (_viewContainer : ViewContainerRef.t) (_template : JsValue)
    (_differs : IterableDiffers) : NgForOf :=
  {| _viewContainer := _viewContainer; _template := _template;
     _differs := _differs;
     _ngForOf := JsNull; _ngForOfDirty := true; _differ := None;
     _trackByFn := JsUndefined;
     heap := []; warned := [] |}.

(** [set ngForOf(ngForOf)]. *)
Definition set_ngForOf (ngForOf : JsValue) : Eff NgForOf unit :=
  (assign (with_ngForOf ngForOf) ;;
   assign (with_ngForOfDirty true))%js.

(** [console.warn(message)], the message being the one about [fn]: a member
    that is no function cannot be called; [warned] keeps the warnings the
    console has taken. *)
Definition console_warn (env : Globals) (fn : JsValue) : Eff NgForOf unit :=
  if String.eqb (typeof (get_property (console env) "warn")) "function" then
    (lift (from_host (run_warn env fn)) ;;
     assign (fun self => with_warned (warned self ++ [fn]) self))%js
  else throw (TypeError "console.warn is not a function").

(** [set ngForTrackBy(fn)].  The argument of [console.warn] is built before
    the call, and building it serialises [fn]. *)
Definition set_ngForTrackBy (env : Globals) (fn : JsValue) : Eff NgForOf unit :=
  ((if dev_mode env && negb (is_nullish fn)
       && negb (String.eqb (typeof fn) "function")
    then
      if truthy (console env) && truthy (get_property (console env) "warn")
      then
        JSON_stringify env fn ;;
        console_warn env fn
      else ret tt
    else ret tt) ;;
   assign (with_trackByFn fn))%js.

(** [get ngForTrackBy()]. *)
Definition get_ngForTrackBy (self : NgForOf) : JsValue := _trackByFn self.

(** [set ngForTemplate(value)]. *)
Definition set_ngForTemplate (value : JsValue) : Eff NgForOf unit :=
  if truthy value then assign (with_template value) else ret tt.

(** [new NgForOfContext($implicit, ngForOf, index, count)]. *)
Definition new_NgForOfContext (c : NgForOfContext) : Eff NgForOf ObjRef :=
  fun self => (Normal (List.length (heap self)), with_heap (heap self ++ [c]) self).

(** [function applyViewChange(view, record)]. *)
Definition applyViewChange (view : option EmbeddedViewRef)
    (record : IterableChangeRecord) : Eff NgForOf unit :=
  match view with
  | None => throw (TypeError "cannot read properties of null")
  | Some v =>
      assign (fun self =>
        with_heap (alter (set_implicit (item record))
                         (ViewContainerRef.context v) (heap self)) self)
  end.

(** The callback given to [changes.forEachOperation]. *)
Definition forEachOperation_callback
    (op : IterableChangeRecord * option nat * option nat) : Eff NgForOf unit :=
  let '(item_, adjustedPreviousIndex, currentIndex_) := op in
  (if is_null (previousIndex item_) then
     self <- this ;;
     ctx <- new_NgForOfContext
              {| implicit := item item_; ngForOf := _ngForOf self;
                 index := -1; count := -1 |} ;;
     _ <- viewContainer
            (ViewContainerRef.createEmbeddedView (_template self) ctx currentIndex_) ;;
     ret tt
   else
     match currentIndex_ with
     | None => viewContainer (ViewContainerRef.remove adjustedPreviousIndex)
     | Some currentIndex_ =>
         if negb (is_null adjustedPreviousIndex) then
           view <- viewContainer (ViewContainerRef.get adjustedPreviousIndex) ;;
           viewContainer (ViewContainerRef.move view currentIndex_) ;;
           applyViewChange view item_
         else ret tt
     end)%js.

(** The body of the [for] loop of [_applyChanges]. *)
Definition renumber (ilen : nat) (i : nat) : Eff NgForOf unit :=
  (viewRef <- viewContainer (ViewContainerRef.get (Some i)) ;;
   match viewRef with
   | None => throw (TypeError "cannot read properties of null")
   | Some v =>
       let context := ViewContainerRef.context v in
       assign (fun self => with_heap (alter (set_index (Z.of_nat i)) context (heap self)) self) ;;
       assign (fun self => with_heap (alter (set_count (Z.of_nat ilen)) context (heap self)) self) ;;
       assign (fun self =>
         with_heap (alter (set_ngForOf_field (_ngForOf self)) context (heap self)) self)
   end)%js.

(** The callback given to [changes.forEachIdentityChange]. *)
Definition forEachIdentityChange_callback (record : IterableChangeRecord)
  : Eff NgForOf unit :=
  (viewRef <- viewContainer (ViewContainerRef.get (currentIndex record)) ;;
   applyViewChange viewRef record)%js.

(** [_applyChanges(changes)]. *)
Definition _applyChanges (changes : IterableChanges) : Eff NgForOf unit :=
  (for_each forEachOperation_callback (operations changes) ;;
   self <- this ;;
   let ilen := ViewContainerRef.length (_viewContainer self) in
   for_each (renumber ilen) (seq 0 ilen) ;;
   for_each forEachIdentityChange_callback (identityChanges changes))%js.

(** [this._differ = this._differs.find(value).create(this.ngForTrackBy)]. *)
Definition find_and_create (value : JsValue) : Eff NgForOf unit :=
  (self <- this ;;
   factory <- lift (from_host (find (_differs self) value)) ;;
   differ <- lift (from_host (create factory (get_ngForTrackBy self))) ;;
   assign (with_differ (Some differ)))%js.

(** [function getTypeName(type)]. *)
Definition getTypeName {S} (type : JsValue) : Eff S JsValue :=
  if is_nullish type then throw (TypeError "cannot read properties of null")
  else
    let name := get_property type "name" in
    ret (if truthy name then name else JsString (typeof type)).

(** The [catch] block of [ngDoCheck]: the message is built, the value
    converted first and its type name next, and then the Error is thrown. *)
Definition differ_not_found (env : Globals) (value : JsValue) : Eff NgForOf unit :=
  (to_string env value ;;
   name <- getTypeName value ;;
   to_string env name ;;
   throw (NgForOnlySupportsIterables value))%js.

(** [ngDoCheck()]. *)
Definition ngDoCheck (env : Globals) : Eff NgForOf unit :=
  (self <- this ;;
   (if _ngForOfDirty self then
      assign (with_ngForOfDirty false) ;;
      let value := _ngForOf self in
      if is_null (_differ self) && truthy value then
        if dev_mode env then
          try_catch (find_and_create value) (differ_not_found env value)
        else
          find_and_create value
      else ret tt
    else ret tt) ;;
   self <- this ;;
   match _differ self with
   | Some differ =>
       changes <- zoom (fun _ => differ) (fun d => with_differ (Some d))
                       (diff (_ngForOf self)) ;;
       match changes with
       | Some changes => _applyChanges changes
       | None => ret tt
       end
   | None => ret tt
   end)%js.

(** Whether [this._differs.find(value).create(this.ngForTrackBy)] returns. *)
Definition differ_available (self : NgForOf) (value : JsValue) : bool :=
  match find (_differs self) value with
  | Returned factory =>
      match create factory (get_ngForTrackBy self) with
      | Returned _ => true
      | Raised _ => false
      end
  | Raised _ => false
  end.

(** Whether [`${v}`] returns. *)
Definition converts (env : Globals) (v : JsValue) : bool :=
  is_primitive v
  || match run_toString env v with Returned _ => true | Raised _ => false end.

(** What [getTypeName] answers for a value that is neither [null] nor
    [undefined]. *)
Definition type_name (value : JsValue) : JsValue :=
  if truthy (get_property value "name") then get_property value "name"
  else JsString (typeof value).

(** Whether the message of the Error about [value] can be built: the value
    and its type name both convert. *)
Definition message_builds (env : Globals) (value : JsValue) : bool :=
  converts env value && converts env (type_name value).

(** Views holding distinct context objects, all among the first [n]
    allocated. *)
Definition distinct_contexts (vs : list EmbeddedViewRef) (n : nat) : Prop :=
  NoDup (ViewContainerRef.context <$> vs)
  /\ Forall (fun v => (ViewContainerRef.context v < n)%nat) vs.

(** The views of the directive all hold distinct context objects, each of
    them allocated. *)
Definition well_formed (self : NgForOf) : Prop :=
  distinct_contexts (ViewContainerRef.views (_viewContainer self))
                    (List.length (heap self)).

(** [m] keeps the directive well formed and leaves [_ngForOf] alone. *)
Definition steady {A} (m : Eff NgForOf A) : Prop :=
  forall self,
    well_formed self ->
    well_formed (state_after (m self))
    /\ _ngForOf (state_after (m self)) = _ngForOf self.

(** The states the directive can be in: built by the constructor on an empty
    container, then driven through its inputs and [ngDoCheck]. *)
Inductive reachable : NgForOf -> Prop :=
| reachable_constructor t ds :
    reachable (constructor ViewContainerRef.empty t ds)
| reachable_set_ngForOf value self :
    reachable self -> reachable (state_after (set_ngForOf value self))
| reachable_set_ngForTrackBy env fn self :
    reachable self -> reachable (state_after (set_ngForTrackBy env fn self))
| reachable_set_ngForTemplate value self :
    reachable self -> reachable (state_after (set_ngForTemplate value self))
| reachable_ngDoCheck env self :
    reachable self -> reachable (state_after (ngDoCheck env self)).

(** The three writes of the [for] loop of [_applyChanges] to one context. *)
Definition stamp (i n : nat) (value : JsValue) (c : NgForOfContext) : NgForOfContext :=
  set_ngForOf_field value (set_count (Z.of_nat n) (set_index (Z.of_nat i) c)).

(** Every context of [h] is still there in [h'], with the same [index],
    [count] and [ngForOf]. *)
Definition same_numbers (h h' : list NgForOfContext) : Prop :=
  forall r c,
    h !! r = Some c ->
    exists c', h' !! r = Some c'
      /\ index c' = index c /\ count c' = count c /\ ngForOf c' = ngForOf c.

(** [m] moves no view and renumbers no context. *)
Definition relabels {A} (m : Eff NgForOf A) : Prop :=
  forall self,
    ViewContainerRef.views (_viewContainer (state_after (m self)))
    = ViewContainerRef.views (_viewContainer self)
    /\ same_numbers (heap self) (heap (state_after (m self))).

(** The context of the view at position [i] carries that position, the
    number [n] of views, and the iterable [value]. *)
Definition numbered (self : NgForOf) (n : nat) (value : JsValue) (i : nat) : Prop :=
  forall view,
    ViewContainerRef.views (_viewContainer self) !! i = Some view ->
    exists c,
      heap self !! ViewContainerRef.context view = Some c
      /\ index c = Z.of_nat i /\ count c = Z.of_nat n /\ ngForOf c = value.

(** The first statement of [ngDoCheck], [if (this._ngForOfDirty) { ... }]. *)
Definition ngDoCheck_lookup (env : Globals) : Eff NgForOf unit :=
  (self <- this ;;
   if _ngForOfDirty self then
     assign (with_ngForOfDirty false) ;;
     let value := _ngForOf self in
     if is_null (_differ self) && truthy value then
       if dev_mode env then
         try_catch (find_and_create value) (differ_not_found env value)
       else
         find_and_create value
     else ret tt
   else ret tt)%js.

(** The second statement of [ngDoCheck], [if (this._differ) { ... }]. *)
Definition ngDoCheck_apply : Eff NgForOf unit :=
  (self <- this ;;
   match _differ self with
   | Some differ =>
       changes <- zoom (fun _ => differ) (fun d => with_differ (Some d))
                       (diff (_ngForOf self)) ;;
       match changes with
       | Some changes => _applyChanges changes
       | None => ret tt
       end
   | None => ret tt
   end)%js.

(** One use of the directive by its host: an input is set, or the check
    runs. *)
Inductive Use : Type :=
| ngForOf_input (value : JsValue)
| ngForTrackBy_input (fn : JsValue)
| ngForTemplate_input (value : JsValue)
| ngDoCheck_call.

Definition use (env : Globals) (u : Use) : Eff NgForOf unit :=
  match u with
  | ngForOf_input value => set_ngForOf value
  | ngForTrackBy_input fn => set_ngForTrackBy env fn
  | ngForTemplate_input value => set_ngForTemplate value
  | ngDoCheck_call => ngDoCheck env
  end.

(** The same inputs, and nothing new on the console. *)
Definition same_inputs (s s' : NgForOf) : Prop :=
  _template s' = _template s /\ _differs s' = _differs s
  /\ _ngForOf s' = _ngForOf s /\ _trackByFn s' = _trackByFn s
  /\ warned s' = warned s.

(** A differ that was there is still there, as the same object: its state
    may have moved, its [diff] method has not. *)
Definition differ_kept (s s' : NgForOf) : Prop :=
  forall d, _differ s = Some d ->
    exists st, _differ s' = Some {| differ_state := st; differ_diff := differ_diff d |}.

(** The same views, in the same order. *)
Definition same_views (s s' : NgForOf) : Prop :=
  ViewContainerRef.views (_viewContainer s')
  = ViewContainerRef.views (_viewContainer s).

(** An operation that inserts a view, and one that removes a view. *)
Definition inserts (op : IterableChangeRecord * option nat * option nat) : bool :=
  is_null (previousIndex (fst (fst op))).

Definition removes (op : IterableChangeRecord * option nat * option nat) : bool :=
  negb (inserts op) && is_null (snd op).

(** Every context keeps its [$implicit]. *)
Definition implicit_kept (s s' : NgForOf) : Prop :=
  forall a c,
    heap s !! a = Some c ->
    exists c', heap s' !! a = Some c' /\ implicit c' = implicit c.

(** The operation by which a differ reports that [x] is new at position
    [k]. *)
Definition insertion_at (k : nat) (x : JsValue)
  : IterableChangeRecord * option nat * option nat :=
  ({| item := x; previousIndex := None; currentIndex := Some k |}, None, Some k).

(** A view, as the template it instantiates and the context it is bound
    to. *)
Definition view_shape (v : EmbeddedViewRef) : JsValue * ObjRef :=
  (ViewContainerRef.view_template v, ViewContainerRef.context v).

(** Every row knows where it is: the context of the view at position [i]
    has [index = i] and [count] equal to the number of views. *)
Definition rows_numbered (self : NgForOf) : Prop :=
  forall i view,
    ViewContainerRef.views (_viewContainer self) !! i = Some view ->
    exists c,
      heap self !! ViewContainerRef.context view = Some c
      /\ index c = Z.of_nat i
      /\ count c = Z.of_nat (ViewContainerRef.length (_viewContainer self)).

(** The states the directive is in between two uses, as long as no use has
    thrown. *)
Inductive settled : NgForOf -> Prop :=
| settled_constructor t ds :
    settled (constructor ViewContainerRef.empty t ds)
| settled_use env u self self' :
    settled self -> use env u self = (Normal tt, self') -> settled self'.

(** The same container and the same contexts. *)
Definition same_rows (s s' : NgForOf) : Prop :=
  _viewContainer s' = _viewContainer s /\ heap s' = heap s.

(** How many operations of a list satisfy [f]. *)
Definition count_of {A} (f : A -> bool) (l : list A) : nat :=
  List.length (List.filter f l).

(** [static ngTemplateContextGuard(dir, ctx)]. *)
Definition ngTemplateContextGuard (dir : NgForOf) (ctx : JsValue) : bool := true.

End ng_for_of.

(* ===================================================================== *)
(** ** sass-loader/dist/options.json *)
(* ===================================================================== *)

Module sass_loader_options.

Inductive TypeName : Type := string_type | object_type | boolean_type.

(** A schema document, with the keywords the file uses.  An absent keyword is
    [None]. *)
Inductive Schema : Type := MkSchema {
  title : option string;
  description : option string;
  link : option string;
  type : option TypeName;
  properties : option (list (string * Schema));
  additionalProperties : option bool;
  anyOf : option (list Schema);
  instanceof : option string
}.

Definition keywordless : Schema :=
  MkSchema None None None None None None None None.

Definition of_type (t : TypeName) : Schema :=
  MkSchema None None None (Some t) None None None None.

Definition of_instance (c : string) : Schema :=
  MkSchema None None None None None None None (Some c).

(** The document, keyword for keyword. *)
Definition options_json : Schema :=
  MkSchema (Some "Sass Loader options") None None (Some object_type)
    (Some [
      ("implementation",
        MkSchema None
          (Some "The implementation of the sass to be used.")
          (Some "https://github.com/webpack-contrib/sass-loader#implementation")
          None None None
          (Some [of_type string_type; of_type object_type])
          None);
      ("sassOptions",
        MkSchema None
          (Some "Options for `node-sass` or `sass` (`Dart Sass`) implementation.")
          (Some "https://github.com/webpack-contrib/sass-loader#sassoptions")
          None None None
          (Some [MkSchema None None None (Some object_type) None (Some true) None None;
                 of_instance "Function"])
          None);
      ("additionalData",
        MkSchema None
          (Some "Prepends/Appends `Sass`/`SCSS` code before the actual entry file.")
          (Some "https://github.com/webpack-contrib/sass-loader#additionaldata")
          None None None
          (Some [of_type string_type; of_instance "Function"])
          None);
      ("sourceMap",
        MkSchema None
          (Some "Enables/Disables generation of source maps.")
          (Some "https://github.com/webpack-contrib/sass-loader#sourcemap")
          (Some boolean_type) None None None None);
      ("webpackImporter",
        MkSchema None
          (Some "Enables/Disables default `webpack` importer.")
          (Some "https://github.com/webpack-contrib/sass-loader#webpackimporter")
          (Some boolean_type) None None None None);
      ("warnRuleAsWarning",
        MkSchema None
          (Some "Treats the '@warn' rule as a webpack warning.")
          (Some "https://github.com/webpack-contrib/sass-loader#warnruleaswarning")
          (Some boolean_type) None None None None)
    ])
    (Some false)
    None None.

(** *** JSON Schema validation, for these keywords *)

(** [type]. *)
Definition has_type (t : TypeName) (data : JsValue) : bool :=
  match t, data with
  | string_type, JsString _ => true
  | object_type, JsObject _ => true
  | boolean_type, JsBoolean _ => true
  | _, _ => false
  end.

(** [instanceof] (ajv-keywords), for the one class the file names. *)
Definition is_instance (c : string) (data : JsValue) : bool :=
  match data with
  | JsFunction _ _ => String.eqb c "Function"
  | _ => false
  end.

(** [validate s data]: [data] satisfies every keyword of [s].  [properties]
    and [additionalProperties] constrain objects only: a member whose name is
    declared must satisfy the declared schema, any other member is allowed
    unless [additionalProperties] is [false]. *)
Fixpoint validate (s : Schema) (data : JsValue) {struct s} : bool :=
  match s with
  | MkSchema _ _ _ ty props additional alternatives cls =>
      match ty with
      | Some t => has_type t data
      | None => true
      end
      && match data with
         | JsObject members =>
             forallb (fun member : string * JsValue =>
               match props with
               | Some declared =>
                   (fix member_ok (ps : list (string * Schema)) : bool :=
                      match ps with
                      | [] => default true additional
                      | (k, sub) :: ps' =>
                          if String.eqb k (fst member)
                          then validate sub (snd member)
                          else member_ok ps'
                      end) declared
               | None => default true additional
               end) members
         | _ => true
         end
      && match alternatives with
         | Some alts =>
             (fix some_ok (l : list Schema) : bool :=
                match l with
                | [] => false
                | a :: l' => validate a data || some_ok l'
                end) alts
         | None => true
         end
      && match cls with
         | Some c => is_instance c data
         | None => true
         end
  end.

(** The names declared under [properties]. *)
Definition declared_names (s : Schema) : list string :=
  fst <$> default [] (properties s).

(** The schema declared for a name. *)
Fixpoint declared_schema (name : string) (ps : list (string * Schema))
  : option Schema :=
  match ps with
  | [] => None
  | (k, sub) :: ps' => if String.eqb k name then Some sub else declared_schema name ps'
  end.

(** What the document asks of an option named [k] with value [x]. *)
Definition option_allowed (k : string) (x : JsValue) : bool :=
  if String.eqb "implementation" k then
    has_type string_type x || has_type object_type x
  else if String.eqb "sassOptions" k then
    has_type object_type x || is_instance "Function" x
  else if String.eqb "additionalData" k then
    has_type string_type x || is_instance "Function" x
  else if String.eqb "sourceMap" k || String.eqb "webpackImporter" k
          || String.eqb "warnRuleAsWarning" k then
    has_type boolean_type x
  else false.

End sass_loader_options.

(* ===================================================================== *)
(** ** Sample inputs *)
(* ===================================================================== *)

Module Samples.

(** A [TemplateRef]: an object with a [createEmbeddedView] method. *)
Definition templateRef (name : string) : JsValue :=
  JsObject [("createEmbeddedView", JsFunction name [])].


(** A freshly constructed [NgIf] on an empty container. *)
Definition fresh_NgIf : ng_if.NgIf :=
  ng_if.constructor ViewContainerRef.empty (templateRef "then") 0.

(** [ngIfThen(null)] followed by [ngIf(true)]. *)
Definition no_then_template : list ng_if.Input :=
  [ng_if.ngIfThen_input JsNull; ng_if.ngIf_input (JsBoolean true)].

(** Globals of a development build with a working console, among objects
    that convert and serialise without trouble. *)
Definition dev_env : ng_for_of.Globals :=
  {| ng_for_of.ngDevMode := None;
     ng_for_of.console := JsObject [("warn", JsFunction "warn" [])];
     ng_for_of.run_toString := fun _ => Returned "[object Object]";
     ng_for_of.run_toJSON := fun _ => Returned "{}";
     ng_for_of.run_warn := fun _ => Returned tt |}.

(** Globals of a production build. *)
Definition prod_env : ng_for_of.Globals :=
  {| ng_for_of.ngDevMode := Some (JsBoolean false);
     ng_for_of.console := JsObject [("warn", JsFunction "warn" [])];
     ng_for_of.run_toString := fun _ => Returned "[object Object]";
     ng_for_of.run_toJSON := fun _ => Returned "{}";
     ng_for_of.run_warn := fun _ => Returned tt |}.

(** An [@angular/core] whose [stringify] returns. *)
Definition core : ng_if.Core :=
  {| ng_if.stringify := fun _ => Returned "value" |}.


(** The operations that insert [items] one after the other. *)
Definition insertions (items : list JsValue)
  : list (ng_for_of.IterableChangeRecord * option nat * option nat) :=
  imap (fun i x =>
          ({| ng_for_of.item := x; ng_for_of.previousIndex := None;
              ng_for_of.currentIndex := Some i |}, None, Some i)) items.

(** A differ that reports the elements of the first array it is shown as
    insertions and no change afterwards, and rejects anything else. *)
Definition first_time_differ : ng_for_of.IterableDiffer :=
  {| ng_for_of.differ_state := JsUndefined;
     ng_for_of.differ_diff := fun value st =>
       match st, value with
       | JsUndefined, JsArray items =>
           (Returned (Some {| ng_for_of.operations := insertions items;
                              ng_for_of.identityChanges := [] |}), value)
       | _, JsArray _ => (Returned None, st)
       | _, _ => (Raised "Error trying to diff", st)
       end |}.

(** A registry that supports arrays only. *)
Definition array_differs : ng_for_of.IterableDiffers :=
  {| ng_for_of.find := fun value =>
       match value with
       | JsArray _ =>
           Returned {| ng_for_of.create := fun _ => Returned first_time_differ |}
       | _ => Raised "Cannot find a differ supporting object"
       end |}.

(** A freshly constructed [NgForOf] on an empty container. *)
Definition fresh_NgForOf : ng_for_of.NgForOf :=
  ng_for_of.constructor ViewContainerRef.empty (templateRef "row") array_differs.

(** The same directive bound to the number 5, after a first [ngDoCheck] has
    failed on it. *)
Definition NgForOf_after_failed_check : ng_for_of.NgForOf :=
  state_after
    (ng_for_of.ngDoCheck dev_env
       (state_after (ng_for_of.set_ngForOf (JsNumber 5) fresh_NgForOf))).

(** A context whose [count] is two past 2^53, at [index] 2^53. *)
Definition context_past_2_53 : ng_for_of.NgForOfContext :=
  {| ng_for_of.implicit := JsNull; ng_for_of.ngForOf := JsNull;
     ng_for_of.index := 9007199254740992;
     ng_for_of.count := 9007199254740994 |}.

(** Two insertions, then an identity change of the first row. *)
Definition two_rows : ng_for_of.IterableChanges :=
  {| ng_for_of.operations := insertions [JsString "a"; JsString "b"];
     ng_for_of.identityChanges :=
       [{| ng_for_of.item := JsString "A"; ng_for_of.previousIndex := Some 0;
           ng_for_of.currentIndex := Some 0 |}] |}.

(** The directive showing its then-view. *)
Definition NgIf_showing_then : ng_if.NgIf :=
  state_after (ng_if.set_ngIf (JsNumber 1) fresh_NgIf).

(** The directive bound to the array [a, b], after its first check. *)
Definition NgForOf_with_two_rows : ng_for_of.NgForOf :=
  state_after
    (ng_for_of.ngDoCheck dev_env
       (state_after
          (ng_for_of.set_ngForOf (JsArray [JsString "a"; JsString "b"])
                                 fresh_NgForOf))).

End Samples.

(* ===================================================================== *)
(** * How effects compose *)
(* ===================================================================== *)

Module EffFacts.

Section Bind.
Context {S A B : Type}.
Variables (m : Eff S A) (k : A -> Eff S B).

Lemma bind_Normal (s s1 : S) (a : A) :
  m s = (Normal a, s1) -> bind m k s = k a s1.
Proof. unfold bind. intros ->. reflexivity. Qed.

Lemma bind_Throw (s s1 : S) (e : JsError) :
  m s = (Throw e, s1) -> bind m k s = (Throw e, s1).
Proof. unfold bind. intros ->. reflexivity. Qed.

(** A sequence either stops in its first part or runs its second. *)
Lemma bind_cases (s : S) :
  (exists e s1, m s = (Throw e, s1) /\ bind m k s = (Throw e, s1))
  \/ (exists a s1, m s = (Normal a, s1) /\ bind m k s = k a s1).
Proof.
  unfold bind. destruct (m s) as [[a | e] s1]; [right | left]; eauto.
Qed.

Lemma bind_Normal_inv (s s' : S) (b : B) :
  bind m k s = (Normal b, s') ->
  exists a s1, m s = (Normal a, s1) /\ k a s1 = (Normal b, s').
Proof.
  destruct (bind_cases s) as [(e & s1 & _ & ->) | (a & s1 & Hm & ->)].
  - discriminate.
  - eauto.
Qed.
End Bind.

Lemma quiet_ret {S A} (a : A) : quiet (@ret S A a).
Proof. intros s e H. discriminate. Qed.

Lemma quiet_this {S} : quiet (@this S).
Proof. intros s e H. discriminate. Qed.

Lemma quiet_assign {S} (f : S -> S) : quiet (assign f).
Proof. intros s e H. discriminate. Qed.

Lemma quiet_throw {S A} (e : JsError) : from_below e -> quiet (@throw S A e).
Proof. intros He s e' H. injection H as <-. exact He. Qed.

Lemma quiet_bind {S A B} (m : Eff S A) (k : A -> Eff S B) :
  quiet m -> (forall a, quiet (k a)) -> quiet (bind m k).
Proof.
  intros Hm Hk s e.
  destruct (bind_cases m k s) as [(e' & s1 & Hms & ->) | (a & s1 & Hms & ->)].
  - intros H. injection H as ->. apply (Hm s e). rewrite Hms. reflexivity.
  - apply Hk.
Qed.

Lemma quiet_zoom {S T A} (proj : S -> T) (inj : T -> S -> S) (m : Eff T A) :
  quiet m -> quiet (zoom proj inj m).
Proof.
  intros Hm s e. unfold zoom. specialize (Hm (proj s) e).
  destruct (m (proj s)) as [r t']. exact Hm.
Qed.

Lemma quiet_for_each {S A} (body : A -> Eff S unit) (xs : list A) :
  (forall x, quiet (body x)) -> quiet (for_each body xs).
Proof.
  intros Hbody. induction xs as [| x xs IH]; simpl.
  - apply quiet_ret.
  - apply quiet_bind; [apply Hbody | intros _; exact IH].
Qed.

Lemma quiet_from_host {S A} (r : HostResult A) :
  quiet (fun s : S => (from_host r, s)).
Proof.
  intros s e. destruct r; simpl; intros H; [discriminate |].
  injection H as <-. exact I.
Qed.

Section Respects.
Context {S : Type}.
Variable R : S -> S -> Prop.
Hypothesis R_refl : forall s, R s s.
Hypothesis R_trans : forall a b c, R a b -> R b c -> R a c.

Lemma respects_ret {A} (a : A) : respects R (ret a).
Proof. intros s. apply R_refl. Qed.

Lemma respects_this : respects R this.
Proof. intros s. apply R_refl. Qed.

Lemma respects_throw {A} (e : JsError) : respects R (@throw S A e).
Proof. intros s. apply R_refl. Qed.

Lemma respects_lift {A} (c : Completion A) : respects R (fun s : S => (c, s)).
Proof. intros s. apply R_refl. Qed.

Lemma respects_bind {A B} (m : Eff S A) (k : A -> Eff S B) :
  respects R m -> (forall a, respects R (k a)) -> respects R (bind m k).
Proof.
  intros Hm Hk s. specialize (Hm s).
  destruct (bind_cases m k s) as [(e & s1 & Hms & ->) | (a & s1 & Hms & ->)];
    rewrite Hms in Hm; simpl in Hm.
  - exact Hm.
  - eapply R_trans; [exact Hm | apply Hk].
Qed.

Lemma respects_bind_at {A B} (m : Eff S A) (k : A -> Eff S B) (s : S) :
  R s (state_after (m s)) -> (forall a, respects R (k a)) ->
  R s (state_after (bind m k s)).
Proof.
  intros Hm Hk.
  destruct (bind_cases m k s) as [(e & s1 & Hms & ->) | (a & s1 & Hms & ->)];
    rewrite Hms in Hm; simpl in Hm.
  - exact Hm.
  - eapply R_trans; [exact Hm | apply Hk].
Qed.

(** After [this], the continuation runs on the state it was given. *)
Lemma respects_bind_this {B} (k : S -> Eff S B) :
  (forall s, R s (state_after (k s s))) -> respects R (bind this k).
Proof. intros Hk s. apply Hk. Qed.

Lemma respects_for_each {A} (body : A -> Eff S unit) (xs : list A) :
  (forall x, respects R (body x)) -> respects R (for_each body xs).
Proof.
  intros Hbody. induction xs as [| x xs IH]; simpl.
  - apply respects_ret.
  - apply respects_bind; [apply Hbody | intros _; exact IH].
Qed.

Lemma respects_try_catch {A} (m handler : Eff S A) :
  respects R m -> respects R handler -> respects R (try_catch m handler).
Proof.
  intros Hm Hh s. specialize (Hm s). unfold try_catch, state_after in *.
  destruct (m s) as [[a | e'] s1]; simpl in *; [exact Hm |].
  eapply R_trans; [exact Hm | apply Hh].
Qed.
End Respects.

Create HintDb quiet.
#[export] Hint Resolve quiet_ret quiet_this quiet_assign quiet_bind quiet_zoom
  quiet_for_each : quiet.

End EffFacts.

(* ===================================================================== *)
(** * Properties of ng_if.mjs *)
(* ===================================================================== *)

Module ng_if_spec.

Import ng_if.

(** Unfolds one layer of the directive's code. *)
Ltac unfold_rest :=
  cbv beta iota zeta delta
    [set_input set_ngIf set_ngIfThen set_ngIfElse _updateView
     stateless_set_input stateless_updateView
     bind this assign ret throw lift from_host viewContainer zoom
     ViewContainerRef.clear ViewContainerRef.createEmbeddedView
     ViewContainerRef.record ViewContainerRef.with_views
     state_after outcome throws completed is_null
     with_viewContainer with_context with_thenTemplateRef with_elseTemplateRef
     with_thenViewRef with_elseViewRef
     _viewContainer _context _context_address _thenTemplateRef _elseTemplateRef
     _thenViewRef _elseViewRef implicit ngIf
     ViewContainerRef.views ViewContainerRef.next_view_id ViewContainerRef.calls
     fst snd].

(** Splits on the first test the code is stuck on. *)
Ltac split_test :=
  simpl;
  match goal with
  | |- context [if ?b then _ else _] => destruct b eqn:?
  | |- context [match ?o with Some _ => _ | None => _ end] => destruct o eqn:?
  | |- context [match ?r with Returned _ => _ | Raised _ => _ end] => destruct r eqn:?
  end;
  simpl.

Ltac open_NgIf self :=
  let vc := fresh "vc" in
  let ctx := fresh "ctx" in
  destruct self as [vc ctx ? ? ? ? ?]; destruct vc as [? ? ?]; destruct ctx as [? ?].

(** [assertTemplate] rejects exactly the truthy values whose
    [createEmbeddedView] is falsy, and touches nothing: it throws its own
    Error when [stringify] returns, and lets the error of [stringify] through
    when it raises. *)
Lemma assertTemplate_spec {S} (core : Core) (property : string) (v : JsValue) (s : S) :
  assertTemplate core property v s =
    if accepted v then (Normal tt, s)
    else
      match stringify core v with
      | Returned _ => (Throw (MustBeTemplateRef property v), s)
      | Raised what => (Throw (HostError what), s)
      end.
Proof.
  unfold assertTemplate, accepted, bind, lift, throw, ret.
  destruct (truthy v), (truthy (get_property v "createEmbeddedView")); simpl;
    try reflexivity; destruct (stringify core v); reflexivity.
Qed.

(** The same, an assertion being replaced by what it comes to. *)
Ltac unfold_code :=
  cbv beta iota zeta delta
    [set_input set_ngIfThen set_ngIfElse stateless_set_input bind];
  rewrite ?assertTemplate_spec;
  unfold_rest.

(** [_updateView] never throws. *)
Lemma _updateView_completes (self : NgIf) :
  outcome (_updateView self) = Normal tt.
Proof.
  open_NgIf self. unfold_code. repeat split_test; reflexivity.
Qed.




(** *** The directive at work *)

Example shows_then_template :
  observe (run Samples.core [ngIf_input (JsNumber 1)] Samples.fresh_NgIf)
  = ([(Samples.templateRef "then", 0)],
     {| implicit := JsNumber 1; ngIf := JsNumber 1 |}).
Proof. reflexivity. Qed.

Example shows_else_template :
  observe (run Samples.core
             [ngIfElse_input (Samples.templateRef "else");
              ngIf_input (JsNumber 1);
              ngIf_input (JsNumber 0)] Samples.fresh_NgIf)
  = ([(Samples.templateRef "else", 0)],
     {| implicit := JsNumber 0; ngIf := JsNumber 0 |}).
Proof. reflexivity. Qed.

Example keeps_the_view_while_truthy :
  ViewContainerRef.view_id
    <$> ViewContainerRef.views
          (_viewContainer
             (run Samples.core [ngIf_input (JsNumber 1); ngIf_input (JsNumber 2)]
                  Samples.fresh_NgIf))
  = [0].
Proof. reflexivity. Qed.

(** *** The cached view references *)

Lemma at_most_one_after_input (core : Core) (i : Input) (self : NgIf) :
  at_most_one_view_ref self ->
  at_most_one_view_ref (state_after (set_input core i self)).
Proof.
  intros H. open_NgIf self. unfold at_most_one_view_ref in *. simpl in H.
  destruct i; destruct H; subst; unfold_code; repeat split_test; auto.
Qed.

(** C9.  NgIf keeps at most one of [_thenViewRef] and [_elseViewRef]
    non-null: this holds after the constructor and is preserved by every call
    of the [ngIf], [ngIfThen] and [ngIfElse] setters (a call that throws
    included, since it changes nothing); and every call of the [ngIf] setter
    leaves [_context.$implicit] and [_context.ngIf] equal to the given
    condition. *)
Theorem view_refs_exclusive :
  (forall vc templateRef address,
      at_most_one_view_ref (constructor vc templateRef address))
  /\ (forall core i self,
      at_most_one_view_ref self ->
      at_most_one_view_ref (state_after (set_input core i self)))
  /\ (forall condition self,
      implicit (_context (state_after (set_ngIf condition self))) = condition
      /\ ngIf (_context (state_after (set_ngIf condition self))) = condition).
Proof.
  split; [| split].
  - intros. left. reflexivity.
  - apply at_most_one_after_input.
  - intros condition self. open_NgIf self.
    unfold_code; repeat split_test; split; reflexivity.
Qed.

Lemma view_refs_exclusive_witness :
  at_most_one_view_ref
    (state_after (set_input Samples.core (ngIf_input (JsBoolean true))
                    Samples.fresh_NgIf)).
Proof.
  apply (proj1 (proj2 view_refs_exclusive)).
  left. reflexivity.
Defined.

(** Every reachable state keeps the two references exclusive. *)
Lemma reachable_at_most_one (self : NgIf) :
  reachable self -> at_most_one_view_ref self.
Proof.
  induction 1 as [vc t a | core i self _ IH].
  - left. reflexivity.
  - apply at_most_one_after_input, IH.
Qed.

(** *** Idempotence of the condition setter *)

Ltac tidy_calls :=
  unfold calls_since; simpl;
  rewrite ?drop_app_length, ?drop_all;
  rewrite <- ?app_assoc; rewrite ?drop_app_length, ?drop_all; simpl.

(** C10.  Calling the [ngIf] setter a second time with the same condition
    changes nothing: from every state of the directive (reachable or not),
    the state and the container contents after two calls are those after one
    call, the second call does not throw, asks the container for no new
    embedded view, and leaves every view where it is. *)
Theorem set_ngIf_idempotent (v : JsValue) (self : NgIf) :
  let once := state_after (set_ngIf v self) in
  let twice := state_after (set_ngIf v once) in
  same_state once twice
  /\ outcome (set_ngIf v once) = Normal tt
  /\ existsb is_createEmbeddedView (calls_since once twice) = false
  /\ ViewContainerRef.views (_viewContainer twice)
     = ViewContainerRef.views (_viewContainer once).
Proof.
  open_NgIf self. unfold same_state, forget_calls.
  unfold_code.
  destruct (truthy v) eqn:Hv.
  - destruct _thenViewRef0; simpl; rewrite ?Hv; simpl.
    + tidy_calls. auto.
    + destruct (truthy _thenTemplateRef0) eqn:Ht; simpl; rewrite ?Hv; simpl;
        rewrite ?Ht; simpl; tidy_calls; auto.
  - destruct _elseViewRef0; simpl; rewrite ?Hv; simpl.
    + tidy_calls. auto.
    + destruct (truthy _elseTemplateRef0) eqn:Ht; simpl; rewrite ?Hv; simpl;
        rewrite ?Ht; simpl; tidy_calls; auto.
Qed.

(** *** The cached update against the stateless rule *)

Lemma in_step_constructor vc templateRef address :
  in_step (constructor vc templateRef address) (constructor vc templateRef address).
Proof. repeat split; discriminate. Qed.

Lemma in_step_set_input (core : Core) (i : Input) (cached stateless : NgIf) :
  in_step cached stateless ->
  in_step (state_after (set_input core i cached))
          (state_after (stateless_set_input core stateless_updateView i stateless)).
Proof.
  open_NgIf cached. open_NgIf stateless.
  unfold in_step, cache_coherent, observe. simpl.
  intros (Hcoh & Hobs & -> & -> & ->).
  injection Hobs as Hviews ->.
  destruct (truthy implicit1) eqn:Hcond;
    destruct Hcoh as [-> Hshown];
    destruct i; unfold_code; repeat split_test;
    repeat split; subst; simpl in *; try congruence; try discriminate;
    try (destruct Hshown as [Hs Ht]; [reflexivity|]; congruence).
Qed.

Lemma in_step_run (core : Core) (inputs : list Input) (cached stateless : NgIf) :
  in_step cached stateless ->
  in_step (run core inputs cached)
          (stateless_run core stateless_updateView inputs stateless).
Proof.
  revert cached stateless.
  induction inputs as [| i inputs IH]; intros cached stateless H; simpl.
  - exact H.
  - apply IH, in_step_set_input, H.
Qed.

(** C3.  For every sequence of invocations of the input setters [ngIf],
    [ngIfThen] and [ngIfElse] on a newly constructed directive, the cached
    [_updateView] and the stateless rule that on each update clears the
    container, then instantiates the then-template exactly when the condition
    is truthy, and the else-template exactly when the condition is falsy and
    an else-template is set, end with the same views in the container (same
    templates, bound to the same context object, in the same order) and the
    same directive context. *)
Theorem cached_updateView_refines_stateless
    (core : Core) (inputs : list Input) (vc : ViewContainerRef.t)
    (templateRef : JsValue) (address : ViewContainerRef.ObjRef) :
  observe (run core inputs (constructor vc templateRef address))
  = observe (stateless_run core stateless_updateView inputs
               (constructor vc templateRef address)).
Proof.
  apply (in_step_run core inputs), in_step_constructor.
Qed.

(** When no then-template is set and the condition is truthy, the directive
    shows nothing; the stateless rule asks the container for a view of the
    template that is not there and gets none. *)
Example no_then_template_shows_nothing :
  observe (run Samples.core Samples.no_then_template Samples.fresh_NgIf)
  = ([], {| implicit := JsBoolean true; ngIf := JsBoolean true |})
  /\ observe (stateless_run Samples.core stateless_updateView
                Samples.no_then_template Samples.fresh_NgIf)
     = ([], {| implicit := JsBoolean true; ngIf := JsBoolean true |})
  /\ throws (stateless_set_input Samples.core stateless_updateView
               (ngIf_input (JsBoolean true))
               (state_after (set_ngIfThen Samples.core JsNull Samples.fresh_NgIf)))
     = true.
Proof. repeat split; reflexivity. Qed.

(** *** What the container holds *)

Lemma cache_coherent_set_input (core : Core) (i : Input) (self : NgIf) :
  cache_coherent self -> cache_coherent (state_after (set_input core i self)).
Proof.
  intros H.
  assert (Hstep : in_step self self) by (repeat split; assumption).
  apply (in_step_set_input core i) in Hstep. apply Hstep.
Qed.

Lemma reachable_cache_coherent (self : NgIf) :
  reachable self -> cache_coherent self.
Proof.
  induction 1 as [vc t a | core i self _ IH].
  - split; [reflexivity | discriminate].
  - apply cache_coherent_set_input, IH.
Qed.

(** A setter throws exactly when its assertion fails. *)
Lemma throws_set_input (core : Core) (i : Input) (self : NgIf) :
  throws (set_input core i self) = negb (input_accepted i).
Proof.
  assert (Hupdate : forall s, throws (_updateView s) = false).
  { intros s. unfold throws. fold (outcome (_updateView s)).
    rewrite _updateView_completes. reflexivity. }
  destruct i as [c | t | t]; unfold input_accepted; simpl.
  - unfold set_ngIf, bind, assign. apply Hupdate.
  - unfold set_ngIfThen, bind. rewrite assertTemplate_spec.
    destruct (accepted t); simpl;
      [unfold assign; apply Hupdate | destruct (stringify core t); reflexivity].
  - unfold set_ngIfElse, bind. rewrite assertTemplate_spec.
    destruct (accepted t); simpl;
      [unfold assign; apply Hupdate | destruct (stringify core t); reflexivity].
Qed.

(** A setter that completes under the stateless rule leaves what is called
    for. *)
Lemma stateless_shows_called_for (core : Core) (i : Input) (self : NgIf) :
  input_accepted i = true ->
  fst (observe (state_after (stateless_set_input core stateless_updateView i self)))
  = called_for (state_after (stateless_set_input core stateless_updateView i self)).
Proof.
  open_NgIf self. unfold observe, called_for, input_accepted.
  destruct i; intros H; unfold_code; rewrite ?H; repeat split_test;
    try reflexivity; congruence.
Qed.

(** X1.  After any setter call that completes on a reachable directive, the
    container holds exactly what the condition and the templates call for:
    one view of the then-template when the condition is truthy and a
    then-template is set, one view of the else-template when the condition is
    falsy and an else-template is set, and no view otherwise; the view is
    bound to the directive's own context object. *)
Theorem container_holds_what_is_called_for (core : Core) (i : Input) (self : NgIf) :
  reachable self ->
  throws (set_input core i self) = false ->
  fst (observe (state_after (set_input core i self)))
  = called_for (state_after (set_input core i self)).
Proof.
  intros Hreach Hdone.
  assert (Hstep : in_step self self).
  { repeat split. apply reachable_cache_coherent, Hreach. }
  apply (in_step_set_input core i) in Hstep as (_ & Hobs & Hthen & Helse & Haddr).
  rewrite throws_set_input in Hdone. apply negb_false_iff in Hdone.
  pose proof (stateless_shows_called_for core i self Hdone) as Hshown.
  unfold called_for in *. rewrite Hobs, Hthen, Helse, Haddr.
  replace (_context (state_after (set_input core i self)))
    with (_context (state_after (stateless_set_input core stateless_updateView i self))).
  - exact Hshown.
  - symmetry. exact (f_equal snd Hobs).
Qed.

Lemma container_holds_what_is_called_for_witness :
  fst (observe (state_after (set_input Samples.core (ngIf_input (JsString "yes"))
                               Samples.fresh_NgIf)))
  = [(Samples.templateRef "then", 0)].
Proof.
  rewrite (container_holds_what_is_called_for Samples.core
             (ngIf_input (JsString "yes")) Samples.fresh_NgIf).
  - reflexivity.
  - apply reachable_constructor.
  - reflexivity.
Defined.

Lemma cached_is_attached_set_input (core : Core) (i : Input) (self : NgIf) :
  cached_is_attached self ->
  cached_is_attached (state_after (set_input core i self)).
Proof.
  open_NgIf self. unfold cached_is_attached. simpl. intros [Hthen Helse].
  destruct i; unfold_code; repeat split_test; split; intros v Hv;
    try discriminate Hv; try (injection Hv as <-; reflexivity); auto;
    rewrite Hv in *; discriminate.
Qed.

(** X2.  In every reachable directive a cached view reference, when it is
    not null, is the one and only view attached to the container: the cache
    never points to a detached view, and never misses a view that is
    attached beside it. *)
Theorem cached_view_is_the_attached_view (self : NgIf) :
  reachable self -> cached_is_attached self.
Proof.
  induction 1 as [vc t a | core i self _ IH].
  - split; intros v Hv; discriminate Hv.
  - apply cached_is_attached_set_input, IH.
Qed.

Lemma cached_view_is_the_attached_view_witness :
  ViewContainerRef.views (_viewContainer Samples.NgIf_showing_then)
  = [{| ViewContainerRef.view_id := 0;
        ViewContainerRef.view_template := Samples.templateRef "then";
        ViewContainerRef.context := 0 |}].
Proof.
  assert (Hreach : reachable Samples.NgIf_showing_then)
    by apply (reachable_set_input Samples.core (ngIf_input (JsNumber 1))),
             reachable_constructor.
  apply (proj1 (cached_view_is_the_attached_view Samples.NgIf_showing_then Hreach)).
  reflexivity.
Defined.

(** X3.  Whatever the state and the setter, one setter call sends the view
    container nothing, or one [clear], or one [clear] followed by one
    [createEmbeddedView] of a truthy template of the directive on the
    directive's context, without an index; it never calls [remove], [move]
    or [get]. *)
Theorem setter_calls (core : Core) (i : Input) (self : NgIf) :
  let after := state_after (set_input core i self) in
  calls_since self after = []
  \/ calls_since self after = [ViewContainerRef.clear_call]
  \/ exists t,
       calls_since self after
       = [ViewContainerRef.clear_call;
          ViewContainerRef.createEmbeddedView_call t (_context_address self) None]
       /\ truthy t = true
       /\ (t = _thenTemplateRef after \/ t = _elseTemplateRef after).
Proof.
  open_NgIf self.
  destruct i; unfold_code; repeat split_test; tidy_calls; eauto 7.
Qed.

(** X4.  While the view of a branch is cached, a new condition that stays in
    that branch (truthy over the then-view, falsy over the else-view) sends
    nothing to the container and keeps the view and both references; only
    the fields of the shared context change, to the new condition. *)
Theorem condition_change_within_branch (c : JsValue) (self : NgIf) :
  (truthy c = true /\ is_null (_thenViewRef self) = false)
  \/ (truthy c = false /\ is_null (_elseViewRef self) = false) ->
  let after := state_after (set_ngIf c self) in
  calls_since self after = []
  /\ ViewContainerRef.views (_viewContainer after)
     = ViewContainerRef.views (_viewContainer self)
  /\ _thenViewRef after = _thenViewRef self
  /\ _elseViewRef after = _elseViewRef self
  /\ _context after = {| implicit := c; ngIf := c |}.
Proof.
  open_NgIf self. simpl.
  intros [[Hc Href] | [Hc Href]]; unfold_code; rewrite Hc;
    [destruct _thenViewRef0 | destruct _elseViewRef0]; try discriminate Href;
    simpl; tidy_calls; auto.
Qed.

Lemma condition_change_within_branch_witness :
  ViewContainerRef.views
    (_viewContainer (state_after (set_ngIf (JsNumber 2) Samples.NgIf_showing_then)))
  = ViewContainerRef.views (_viewContainer Samples.NgIf_showing_then).
Proof.
  apply (condition_change_within_branch (JsNumber 2) Samples.NgIf_showing_then).
  left. split; reflexivity.
Defined.





End ng_if_spec.

(* ===================================================================== *)
(** * Properties of ng_for_of.mjs *)
(* ===================================================================== *)

Module ng_for_of_spec.

Import ng_for_of EffFacts.

(** Rounding at work: past 2^53 only every second integer is a double, past
    2^54 only every fourth, and a tie goes to the even neighbour. *)
Example to_double_rounds :
  to_double 9007199254740993 = 9007199254740992%Z
  /\ to_double 9007199254740995 = 9007199254740996%Z
  /\ to_double (-9007199254740993) = (-9007199254740992)%Z
  /\ to_double 18014398509481986 = 18014398509481984%Z
  /\ to_double 18014398509481990 = 18014398509481992%Z
  /\ to_double 9007199254740994 = 9007199254740994%Z.
Proof. repeat split. Qed.

(** Up to 2^53 in size every integer is a double. *)
Lemma to_double_small (z : Z) : (Z.abs z <= 2 ^ 53)%Z -> to_double z = z.
Proof.
  change (2 ^ 53)%Z with 9007199254740992%Z.
  intros Hz. unfold to_double.
  destruct (Z.eq_dec (Z.abs z) 9007199254740992%Z) as [Hedge | Hin].
  - assert (Hcases : z = 9007199254740992%Z \/ z = (- 9007199254740992)%Z) by lia.
    destruct Hcases as [-> | ->]; reflexivity.
  - assert (Hlog : (Z.log2 (Z.abs z) - 52 <= 0)%Z).
    { destruct (Z.eq_dec (Z.abs z) 0%Z) as [-> | Hpos]; [simpl; lia |].
      assert (Z.log2 (Z.abs z) < 53)%Z.
      { apply Z.log2_lt_pow2; [lia |].
        change (2 ^ 53)%Z with 9007199254740992%Z. lia. }
      lia. }
    apply Z.leb_le in Hlog. rewrite Hlog. reflexivity.
Qed.

(** C8, as amended.  For every [NgForOfContext] whose [index] and [count] are
    integers: [first] is true iff [index = 0]; [last] is true iff [index] is
    the double that the subtraction [count - 1] returns, which is [count - 1]
    itself as long as it does not exceed 2^53 in size; [even] is true iff
    [index mod 2 = 0]; [odd] is the negation of [even], so exactly one of
    [even] and [odd] holds (whatever the sign of [index]). *)
Theorem context_getters (c : NgForOfContext) :
  (first c = true <-> index c = 0%Z)
  /\ (last c = true <-> index c = to_double (count c - 1))
  /\ ((Z.abs (count c - 1) <= 2 ^ 53)%Z ->
      (last c = true <-> index c = (count c - 1)%Z))
  /\ (even c = true <-> (index c mod 2 = 0)%Z)
  /\ odd c = negb (even c)
  /\ xorb (even c) (odd c) = true.
Proof.
  assert (Hrem : (Z.rem (index c) 2 =? 0)%Z = true <-> (index c mod 2 = 0)%Z).
  { rewrite Z.eqb_eq, Z.rem_divide, Z.mod_divide by discriminate. reflexivity. }
  unfold odd, first, last, even.
  split; [apply Z.eqb_eq |].
  split; [apply Z.eqb_eq |].
  split; [intros Hsmall; rewrite (to_double_small _ Hsmall); apply Z.eqb_eq |].
  split; [exact Hrem |].
  split; [reflexivity |].
  destruct (Z.rem (index c) 2 =? 0)%Z; reflexivity.
Qed.

Lemma context_getters_witness :
  first {| implicit := JsNull; ngForOf := JsNull; index := 0; count := 3 |} = true
  /\ last {| implicit := JsNull; ngForOf := JsNull; index := 2; count := 3 |} = true
  /\ even {| implicit := JsNull; ngForOf := JsNull; index := -1; count := -1 |} = false.
Proof.
  split; [| split].
  - apply (proj1 (context_getters _)). reflexivity.
  - apply (proj1 (proj2 (proj2 (context_getters _)))); [simpl; lia | reflexivity].
  - reflexivity.
Defined.

(** C8, as stated, fails.  2^53 and 2^53 + 2 are doubles, and 2^53 + 1 is
    not: with [count = 2^53 + 2] the subtraction [count - 1] returns 2^53, so
    [last] is true at [index = 2^53], which is not [count - 1]. *)
Lemma context_getters_claim_fails :
  is_double (index Samples.context_past_2_53)
  /\ is_double (count Samples.context_past_2_53)
  /\ last Samples.context_past_2_53 = true
  /\ index Samples.context_past_2_53 <> (count Samples.context_past_2_53 - 1)%Z.
Proof. repeat split. discriminate. Qed.

(** *** The directive at work *)

Example renders_one_view_per_item :
  let self := state_after
                (ngDoCheck Samples.dev_env
                   (state_after
                      (set_ngForOf (JsArray [JsString "a"; JsString "b"])
                                   Samples.fresh_NgForOf))) in
  ViewContainerRef.context <$> ViewContainerRef.views (_viewContainer self) = [0; 1]
  /\ heap self
     = [{| implicit := JsString "a"; ngForOf := JsArray [JsString "a"; JsString "b"];
           index := 0; count := 2 |};
        {| implicit := JsString "b"; ngForOf := JsArray [JsString "a"; JsString "b"];
           index := 1; count := 2 |}].
Proof. split; reflexivity. Qed.

Example production_build_lets_the_host_error_through :
  outcome (ngDoCheck Samples.prod_env
             (state_after (set_ngForOf (JsNumber 5) Samples.fresh_NgForOf)))
  = Throw (HostError "Cannot find a differ supporting object").
Proof. reflexivity. Qed.

(** *** [ngForTrackBy] *)

(** The three ways the setter can go: it throws, from below, before it has
    written anything; it stores [fn] without a warning; or it stores [fn]
    after the console has taken the warning. *)
Lemma set_ngForTrackBy_spec (env : Globals) (fn : JsValue) (self : NgForOf) :
  (exists e, from_below e /\ set_ngForTrackBy env fn self = (Throw e, self))
  \/ set_ngForTrackBy env fn self = (Normal tt, with_trackByFn fn self)
  \/ set_ngForTrackBy env fn self
     = (Normal tt, with_trackByFn fn (with_warned (warned self ++ [fn]) self)).
Proof.
  unfold set_ngForTrackBy, JSON_stringify, console_warn,
    bind, lift, from_host, assign, ret, throw.
  repeat (match goal with
          | |- context [if ?b then _ else _] => destruct b
          | |- context [match ?r with Returned _ => _ | Raised _ => _ end] =>
              destruct r
          end; simpl);
    try (right; left; reflexivity); try (right; right; reflexivity);
    left; eexists; (split; [| reflexivity]); exact I.
Qed.

(** When the warning is due and its text cannot be built, the setter throws
    before it has stored anything. *)
Lemma set_ngForTrackBy_rejects (env : Globals) (fn : JsValue) (self : NgForOf) :
  dev_mode env = true ->
  is_nullish fn = false ->
  typeof fn <> "function" ->
  truthy (console env) && truthy (get_property (console env) "warn") = true ->
  has_toJSON fn = false ->
  JSON_stringify_returns fn = false ->
  set_ngForTrackBy env fn self
  = (Throw (TypeError "JSON.stringify cannot serialize the value"), self).
Proof.
  intros Hdev Hnull Hfun Hwarn Hcode Hjson.
  unfold set_ngForTrackBy, JSON_stringify, bind, throw.
  rewrite Hdev, Hnull, Hwarn, Hcode, Hjson.
  destruct (String.eqb_spec (typeof fn) "function") as [Hf | _];
    [contradiction | reflexivity].
Qed.

(** C6, on the code: in a development build with a working console,
    [set ngForTrackBy] given a BigInt throws a [TypeError] while building the
    warning, before the assignment to [_trackByFn]; the directive is
    unchanged and the getter still answers the previous value. *)
Theorem set_ngForTrackBy_BigInt_throws (z : Z) (self : NgForOf) :
  set_ngForTrackBy Samples.dev_env (JsBigInt z) self
    = (Throw (TypeError "JSON.stringify cannot serialize the value"), self)
  /\ get_ngForTrackBy
       (state_after (set_ngForTrackBy Samples.dev_env (JsBigInt z) self))
     = get_ngForTrackBy self.
Proof.
  assert (H : set_ngForTrackBy Samples.dev_env (JsBigInt z) self
              = (Throw (TypeError "JSON.stringify cannot serialize the value"), self)).
  { apply set_ngForTrackBy_rejects; try reflexivity. discriminate. }
  rewrite H. split; reflexivity.
Qed.

(** Whenever the setter returns, it has stored [fn] as it is. *)
Lemma set_ngForTrackBy_stores (env : Globals) (fn : JsValue) (self self' : NgForOf) :
  set_ngForTrackBy env fn self = (Normal tt, self') ->
  get_ngForTrackBy self' = fn.
Proof.
  destruct (set_ngForTrackBy_spec env fn self) as [(e & _ & ->) | [-> | ->]];
    intros [= <-]; reflexivity.
Qed.

(** *** [ngDoCheck] *)

Lemma quiet_clear : quiet ViewContainerRef.clear.
Proof. intros s e H. discriminate. Qed.

Lemma quiet_createEmbeddedView t c i :
  quiet (ViewContainerRef.createEmbeddedView t c i).
Proof.
  intros s e. unfold ViewContainerRef.createEmbeddedView, outcome.
  destruct (truthy t); simpl; [| intros H; injection H as <-; exact I].
  destruct (_ <=? _)%nat; simpl; intros H; [discriminate |].
  injection H as <-. exact I.
Qed.

Lemma quiet_remove i : quiet (ViewContainerRef.remove i).
Proof.
  intros s e. unfold ViewContainerRef.remove, outcome.
  destruct (_ <? _)%nat; simpl; intros H; [discriminate |].
  injection H as <-. exact I.
Qed.

Lemma quiet_get i : quiet (ViewContainerRef.get i).
Proof. intros s e H. discriminate. Qed.

Lemma quiet_move v i : quiet (ViewContainerRef.move v i).
Proof.
  intros s e. unfold ViewContainerRef.move, outcome.
  destruct v as [v |]; simpl; [| intros H; injection H as <-; exact I].
  destruct (ViewContainerRef.indexOf _ _); simpl;
    [| intros H; injection H as <-; exact I].
  destruct (_ <=? _)%nat; simpl; intros H; [discriminate |].
  injection H as <-. exact I.
Qed.

Lemma quiet_viewContainer {A} (method : Eff ViewContainerRef.t A) :
  quiet method -> quiet (viewContainer method).
Proof. apply quiet_zoom. Qed.

Lemma quiet_applyViewChange view record : quiet (applyViewChange view record).
Proof.
  destruct view; simpl; [apply quiet_assign | apply quiet_throw; exact I].
Qed.

#[local] Hint Resolve quiet_clear quiet_createEmbeddedView quiet_remove quiet_get
  quiet_move quiet_viewContainer quiet_applyViewChange : quiet.

Lemma quiet_forEachOperation_callback op : quiet (forEachOperation_callback op).
Proof.
  destruct op as [[item_ adjusted] current]. unfold forEachOperation_callback.
  destruct (is_null (previousIndex item_)).
  - apply quiet_bind; [apply quiet_this | intros self].
    apply quiet_bind; [intros s e H; discriminate | intros ctx].
    auto 6 with quiet.
  - destruct current; [| auto with quiet].
    destruct (negb (is_null adjusted)); auto 8 with quiet.
Qed.

Lemma quiet_renumber ilen i : quiet (renumber ilen i).
Proof.
  unfold renumber. apply quiet_bind; [auto with quiet | intros [v |]].
  - auto 8 with quiet.
  - apply quiet_throw. exact I.
Qed.

Lemma quiet_forEachIdentityChange_callback record :
  quiet (forEachIdentityChange_callback record).
Proof. unfold forEachIdentityChange_callback. auto 6 with quiet. Qed.

Lemma quiet_applyChanges changes : quiet (_applyChanges changes).
Proof.
  unfold _applyChanges.
  apply quiet_bind;
    [apply quiet_for_each, quiet_forEachOperation_callback | intros _].
  apply quiet_bind; [apply quiet_this | intros self].
  apply quiet_bind; [apply quiet_for_each, quiet_renumber | intros _].
  apply quiet_for_each, quiet_forEachIdentityChange_callback.
Qed.

Lemma quiet_find_and_create value : quiet (find_and_create value).
Proof.
  unfold find_and_create, lift.
  apply quiet_bind; [apply quiet_this | intros self].
  apply quiet_bind; [apply quiet_from_host | intros factory].
  apply quiet_bind; [apply quiet_from_host | intros differ].
  apply quiet_assign.
Qed.

(** What [find_and_create] does, by cases on the registry. *)
Lemma find_and_create_spec (value : JsValue) (self : NgForOf) :
  if differ_available self value
  then exists differ,
         find_and_create value self = (Normal tt, with_differ (Some differ) self)
  else exists what, find_and_create value self = (Throw (HostError what), self).
Proof.
  unfold differ_available, find_and_create, lift, bind, this, assign.
  destruct (find (_differs self) value) as [factory | what]; simpl; [| eauto].
  destruct (create factory (get_ngForTrackBy self)) as [differ | what]; simpl; eauto.
Qed.

(** The part of [ngDoCheck] after the differ has been looked up. *)
Lemma quiet_diff_and_apply :
  quiet (self <- this ;;
         match _differ self with
         | Some differ =>
             changes <- zoom (fun _ => differ) (fun d => with_differ (Some d))
                             (diff (_ngForOf self)) ;;
             match changes with
             | Some changes => _applyChanges changes
             | None => ret tt
             end
         | None => ret tt
         end)%js.
Proof.
  apply quiet_bind; [apply quiet_this | intros self].
  destruct (_differ self) as [differ |]; [| apply quiet_ret].
  apply quiet_bind.
  - apply quiet_zoom. intros d e. unfold diff, outcome.
    destruct (differ_diff d _ _) as [[r | what] st]; simpl; intros H;
      [discriminate | injection H as <-; exact I].
  - intros [changes |]; [apply quiet_applyChanges | apply quiet_ret].
Qed.

(** What the [catch] block of [ngDoCheck] throws: its own Error when the
    message can be built, and otherwise the error of the conversion that
    failed. *)
Lemma differ_not_found_spec (env : Globals) (value : JsValue) (s : NgForOf) :
  truthy value = true ->
  if message_builds env value
  then differ_not_found env value s = (Throw (NgForOnlySupportsIterables value), s)
  else exists what, differ_not_found env value s = (Throw (HostError what), s).
Proof.
  intros Htruthy.
  assert (Hnull : is_nullish value = false) by (destruct value; try discriminate; reflexivity).
  unfold message_builds, converts, type_name, differ_not_found, to_string, getTypeName,
    bind, lift, from_host, ret, throw.
  rewrite Hnull.
  destruct (is_primitive value); simpl;
    [| destruct (run_toString env value) as [text | what]; simpl; [| eauto]];
    (destruct (truthy (get_property value "name")); simpl; [| reflexivity];
     destruct (is_primitive (get_property value "name")); simpl; [reflexivity |];
     destruct (run_toString env (get_property value "name")) as [text' | what'];
     simpl; eauto).
Qed.

(** The [catch] block writes nothing. *)
Lemma differ_not_found_state (env : Globals) (value : JsValue) (s : NgForOf) :
  state_after (differ_not_found env value s) = s.
Proof.
  unfold differ_not_found, to_string, getTypeName,
    bind, lift, from_host, ret, throw, state_after.
  repeat (match goal with
          | |- context [if ?b then _ else _] => destruct b
          | |- context [match ?r with Returned _ => _ | Raised _ => _ end] =>
              destruct r
          end; simpl); reflexivity.
Qed.


(** The two ways [ngDoCheck] can go: it stops on the missing differ with its
    own Error, only the dirty flag changed; or whatever it throws comes from
    below. *)
Lemma ngDoCheck_cases (env : Globals) (self : NgForOf) :
  (dev_mode env = true /\ _ngForOfDirty self = true /\ _differ self = None
   /\ truthy (_ngForOf self) = true
   /\ differ_available self (_ngForOf self) = false
   /\ message_builds env (_ngForOf self) = true
   /\ ngDoCheck env self
      = (Throw (NgForOnlySupportsIterables (_ngForOf self)),
         with_ngForOfDirty false self))
  \/ ((dev_mode env = false \/ _ngForOfDirty self = false \/ _differ self <> None
       \/ truthy (_ngForOf self) = false
       \/ differ_available self (_ngForOf self) = true
       \/ message_builds env (_ngForOf self) = false)
      /\ forall e, outcome (ngDoCheck env self) = Throw e -> from_below e).
Proof.
  pose proof (find_and_create_spec (_ngForOf self) (with_ngForOfDirty false self)) as Hfc.
  change (differ_available (with_ngForOfDirty false self) (_ngForOf self))
    with (differ_available self (_ngForOf self)) in Hfc.
  unfold ngDoCheck.
  rewrite (bind_Normal this _ self self self eq_refl).
  match goal with
  | |- context [bind ?m ?k self] => set (part1 := m); set (part2 := k)
  end.
  assert (Hpart2 : forall a, quiet (part2 a)) by (intros a; apply quiet_diff_and_apply).
  assert (Hafter : forall s1,
             part1 self = (Normal tt, s1) ->
             forall e, outcome (bind part1 part2 self) = Throw e -> from_below e).
  { intros s1 H1 e. rewrite (bind_Normal _ _ _ _ _ H1). apply Hpart2. }
  destruct (_ngForOfDirty self) eqn:Hdirty.
  2:{ right. split; [auto |]. apply (Hafter self). reflexivity. }
  destruct (_differ self) as [d |] eqn:Hdiffer.
  { right. split; [right; right; left; discriminate |].
    apply (Hafter (with_ngForOfDirty false self)).
    subst part1. simpl. unfold bind, assign, ret. reflexivity. }
  destruct (truthy (_ngForOf self)) eqn:Htruthy.
  2:{ right. split; [auto |].
      apply (Hafter (with_ngForOfDirty false self)).
      subst part1. simpl. unfold bind, assign, ret. reflexivity. }
  destruct (differ_available self (_ngForOf self)) eqn:Havail.
  { right. split; [auto 6 |]. destruct Hfc as [differ Hfc].
    apply (Hafter (with_differ (Some differ) (with_ngForOfDirty false self))).
    subst part1. simpl. unfold bind, assign, try_catch.
    destruct (dev_mode env); rewrite Hfc; reflexivity. }
  destruct Hfc as [what Hfc].
  destruct (dev_mode env) eqn:Hdev.
  - pose proof (differ_not_found_spec env (_ngForOf self)
                  (with_ngForOfDirty false self) Htruthy) as Hcatch.
    destruct (message_builds env (_ngForOf self)) eqn:Hmessage.
    + left. repeat (split; [reflexivity |]).
      subst part1. simpl. unfold bind at 1. unfold bind at 1.
      unfold assign, try_catch. rewrite Hfc, Hcatch. reflexivity.
    + right. split; [auto 7 |]. intros e. destruct Hcatch as [what' Hcatch].
      subst part1. simpl. unfold bind at 1. unfold bind at 1.
      unfold assign, try_catch. rewrite Hfc, Hcatch. simpl.
      intros H. injection H as <-. exact I.
  - right. split; [auto |]. intros e.
    subst part1. simpl. unfold bind at 1. unfold bind at 1.
    unfold assign. rewrite Hfc. simpl.
    intros H. injection H as <-. exact I.
Qed.

(** C2, as amended.  [ngDoCheck] throws the "NgFor only supports binding to
    Iterables" error exactly when the build is a development build, the
    dirty flag [_ngForOfDirty] is set, no differ has been created yet, the
    current [ngForOf] value is truthy,
    [_differs.find(value).create(ngForTrackBy)] fails, and the message of the
    Error can be built, the value and its type name both converting to a
    string; on that throw [_differ] is still null and the view container and
    the contexts are untouched, the dirty flag alone having been cleared.
    When the [ngForOf] value is null or undefined and no differ exists,
    [ngDoCheck] creates no differ, throws nothing and calls no method of the
    view container: it only clears the dirty flag. *)
Theorem ngDoCheck_differ_error (env : Globals) (self : NgForOf) :
  (forall value,
      outcome (ngDoCheck env self) = Throw (NgForOnlySupportsIterables value)
      <-> (dev_mode env = true /\ _ngForOfDirty self = true
           /\ _differ self = None /\ truthy (_ngForOf self) = true
           /\ differ_available self (_ngForOf self) = false
           /\ message_builds env (_ngForOf self) = true
           /\ value = _ngForOf self))
  /\ (forall value,
      outcome (ngDoCheck env self) = Throw (NgForOnlySupportsIterables value) ->
      state_after (ngDoCheck env self) = with_ngForOfDirty false self
      /\ _differ (state_after (ngDoCheck env self)) = None
      /\ _viewContainer (state_after (ngDoCheck env self)) = _viewContainer self
      /\ heap (state_after (ngDoCheck env self)) = heap self)
  /\ (is_nullish (_ngForOf self) = true -> _differ self = None ->
      ngDoCheck env self = (Normal tt, with_ngForOfDirty false self)).
Proof.
  destruct (ngDoCheck_cases env self)
    as [(Hdev & Hdirty & Hdiffer & Htruthy & Havail & Hmessage & Hrun) | [Hnot Hbelow]].
  - split; [| split].
    + intros value. rewrite Hrun. simpl. split.
      * intros H. injection H as <-. auto 8.
      * intros (_ & _ & _ & _ & _ & _ & ->). reflexivity.
    + intros value _. rewrite Hrun. simpl. auto.
    + intros Hnull _. destruct (_ngForOf self); discriminate.
  - split; [| split].
    + intros value. split.
      * intros H. destruct (Hbelow _ H).
      * intros (Hdev & Hdirty & Hdiffer & Htruthy & Havail & Hmessage & _).
        destruct Hnot as [H | [H | [H | [H | [H | H]]]]]; congruence.
    + intros value H. destruct (Hbelow _ H).
    + intros Hnull Hdiffer.
      assert (Htruthy : truthy (_ngForOf self) = false)
        by (destruct (_ngForOf self); try discriminate; reflexivity).
      destruct self as [vc t ds v dirty differ fn h w]. simpl in *. subst differ.
      unfold ngDoCheck, bind, this, assign, ret. simpl. rewrite Htruthy.
      destruct dirty; reflexivity.
Qed.

Lemma ngDoCheck_differ_error_witness :
  outcome (ngDoCheck Samples.dev_env
             (state_after (set_ngForOf (JsNumber 5) Samples.fresh_NgForOf)))
    = Throw (NgForOnlySupportsIterables (JsNumber 5))
  /\ ngDoCheck Samples.dev_env Samples.fresh_NgForOf
     = (Normal tt, with_ngForOfDirty false Samples.fresh_NgForOf).
Proof.
  split.
  - apply (proj1 (ngDoCheck_differ_error Samples.dev_env
                    (state_after (set_ngForOf (JsNumber 5) Samples.fresh_NgForOf)))).
    repeat split; reflexivity.
  - apply (proj2 (proj2 (ngDoCheck_differ_error Samples.dev_env Samples.fresh_NgForOf)));
      reflexivity.
Defined.

(** When the message cannot be built, what [ngDoCheck] throws is the error of
    the conversion, not its own. *)
Example ngDoCheck_on_an_object_that_does_not_convert :
  let env := {| ngDevMode := None; console := JsNull;
                run_toString := fun _ => Raised "Cannot convert object to primitive value";
                run_toJSON := fun _ => Returned "{}";
                run_warn := fun _ => Returned tt |} in
  let value := JsObject [("toString", JsNumber 5)] in
  ngDoCheck env (state_after (set_ngForOf value Samples.fresh_NgForOf))
  = (Throw (HostError "Cannot convert object to primitive value"),
     with_ngForOfDirty false (state_after (set_ngForOf value Samples.fresh_NgForOf))).
Proof. reflexivity. Qed.

(** C2, as stated, fails.  After a first [ngDoCheck] has thrown on the number
    5, no differ exists, the [ngForOf] value is truthy and the registry
    supports no such value; yet a second [ngDoCheck] does not throw, the
    dirty flag having been cleared by the first. *)
Lemma ngDoCheck_claim_fails_when_clean :
  throws (ngDoCheck Samples.dev_env
            (state_after (set_ngForOf (JsNumber 5) Samples.fresh_NgForOf))) = true
  /\ _differ Samples.NgForOf_after_failed_check = None
  /\ truthy (_ngForOf Samples.NgForOf_after_failed_check) = true
  /\ find (_differs Samples.NgForOf_after_failed_check)
          (_ngForOf Samples.NgForOf_after_failed_check)
     = Raised "Cannot find a differ supporting object"
  /\ throws (ngDoCheck Samples.dev_env Samples.NgForOf_after_failed_check) = false.
Proof. repeat split; reflexivity. Qed.

(** *** [_applyChanges] *)

Section DistinctContexts.
Import ViewContainerRef.
Implicit Types (vs : list EmbeddedViewRef) (v : EmbeddedViewRef).

Lemma distinct_contexts_nil n : distinct_contexts [] n.
Proof. split; constructor. Qed.

Lemma distinct_contexts_Permutation vs vs' n :
  vs ≡ₚ vs' -> distinct_contexts vs n -> distinct_contexts vs' n.
Proof. intros Hp [Hnd Hall]. split; rewrite <- Hp; assumption. Qed.

Lemma distinct_contexts_sublist vs vs' n :
  vs' `sublist_of` vs -> distinct_contexts vs n -> distinct_contexts vs' n.
Proof.
  intros Hs [Hnd Hall]. split.
  - eapply sublist_NoDup; [exact Hnd |]. apply fmap_sublist, Hs.
  - rewrite Forall_forall in *. intros v Hv. apply Hall.
    eapply elem_of_sublist; eassumption.
Qed.

Lemma distinct_contexts_mono vs n m :
  (n <= m)%nat -> distinct_contexts vs n -> distinct_contexts vs m.
Proof.
  intros Hle [Hnd Hall]. split; [exact Hnd |].
  eapply Forall_impl; [exact Hall |]. simpl. intros v Hv. lia.
Qed.

(** A view on a context allocated past the bound is new among the views. *)
Lemma distinct_contexts_cons_fresh vs v n :
  context v = n -> distinct_contexts vs n -> distinct_contexts (v :: vs) (S n).
Proof.
  intros Hv [Hnd Hall]. split.
  - rewrite fmap_cons. apply NoDup_cons_2; [| exact Hnd].
    intros Hin. apply list_elem_of_fmap in Hin as (w & Hw & Hin).
    rewrite Forall_forall in Hall. specialize (Hall w Hin). lia.
  - constructor; [lia |].
    eapply Forall_impl; [exact Hall |]. simpl. intros w Hw. lia.
Qed.

Lemma insert_at_Permutation {A} (i : nat) (x : A) (l : list A) :
  insert_at i x l ≡ₚ x :: l.
Proof.
  unfold insert_at. rewrite <- Permutation_middle, take_drop. reflexivity.
Qed.

Lemma indexOf_lookup id vs i :
  indexOf id vs = Some i -> is_Some (vs !! i).
Proof.
  revert i. induction vs as [| v vs IH]; intros i; simpl; [discriminate |].
  destruct (view_id v =? id)%nat.
  - intros [= <-]. eauto.
  - destruct (indexOf id vs) as [j |]; simpl; [| discriminate].
    intros [= <-]. simpl. apply IH. reflexivity.
Qed.

(** What each method does to the list of views. *)
Lemma clear_views vc : views (state_after (clear vc)) = [].
Proof. reflexivity. Qed.

Lemma createEmbeddedView_views t c i vc :
  views (state_after (createEmbeddedView t c i vc)) = views vc
  \/ exists v, context v = c
       /\ views (state_after (createEmbeddedView t c i vc)) ≡ₚ v :: views vc.
Proof.
  unfold createEmbeddedView, state_after. simpl.
  destruct (truthy t); simpl; [| left; reflexivity].
  destruct (_ <=? _)%nat; simpl; [right | left; reflexivity].
  eexists. split; [| apply insert_at_Permutation]. reflexivity.
Qed.

Lemma remove_views i vc :
  views (state_after (remove i vc)) `sublist_of` views vc.
Proof.
  unfold remove, state_after. simpl.
  destruct (_ <? _)%nat; simpl; [apply sublist_delete | reflexivity].
Qed.

Lemma get_views i vc : views (state_after (get i vc)) = views vc.
Proof. reflexivity. Qed.

Lemma move_views view j vc :
  views (state_after (move view j vc)) ≡ₚ views vc.
Proof.
  unfold move, state_after. simpl.
  destruct view as [v |]; simpl; [| reflexivity].
  destruct (indexOf (view_id v) (views vc)) as [from |] eqn:Hfrom; simpl;
    [| reflexivity].
  destruct (_ <=? _)%nat; simpl; [| reflexivity].
  apply indexOf_lookup in Hfrom as [found Hfound]. rewrite Hfound. simpl.
  rewrite insert_at_Permutation. symmetry.
  apply delete_Permutation, Hfound.
Qed.
End DistinctContexts.

Lemma viewContainer_state {A} (method : Eff ViewContainerRef.t A) (self : NgForOf) :
  state_after (viewContainer method self)
  = with_viewContainer (state_after (method (_viewContainer self))) self.
Proof.
  unfold viewContainer, zoom, state_after.
  destruct (method (_viewContainer self)). reflexivity.
Qed.

Lemma steady_ret {A} (a : A) : steady (ret a).
Proof. intros self H. split; [exact H | reflexivity]. Qed.

Lemma steady_this : steady this.
Proof. intros self H. split; [exact H | reflexivity]. Qed.

Lemma steady_throw {A} e : steady (@throw NgForOf A e).
Proof. intros self H. split; [exact H | reflexivity]. Qed.

Lemma steady_bind {A B} (m : Eff NgForOf A) (k : A -> Eff NgForOf B) :
  steady m -> (forall a, steady (k a)) -> steady (bind m k).
Proof.
  intros Hm Hk self Hwf. specialize (Hm self Hwf).
  destruct (bind_cases m k self) as [(e & s1 & Hms & ->) | (a & s1 & Hms & ->)];
    rewrite Hms in Hm; simpl in Hm.
  - exact Hm.
  - destruct Hm as [Hwf1 <-]. apply Hk, Hwf1.
Qed.

Lemma steady_for_each {A} (body : A -> Eff NgForOf unit) (xs : list A) :
  (forall x, steady (body x)) -> steady (for_each body xs).
Proof.
  intros Hbody. induction xs as [| x xs IH]; simpl.
  - apply steady_ret.
  - apply steady_bind; [apply Hbody | intros _; exact IH].
Qed.

(** A container method that only drops or reorders views. *)
Lemma steady_viewContainer {A} (method : Eff ViewContainerRef.t A) :
  (forall vc, exists vs,
      ViewContainerRef.views (state_after (method vc)) ≡ₚ vs
      /\ vs `sublist_of` ViewContainerRef.views vc) ->
  steady (viewContainer method).
Proof.
  intros Hmethod self Hwf. rewrite viewContainer_state.
  split; [| reflexivity].
  destruct (Hmethod (_viewContainer self)) as (vs & Hperm & Hsub).
  unfold well_formed. simpl.
  eapply distinct_contexts_Permutation; [symmetry; exact Hperm |].
  eapply distinct_contexts_sublist; [exact Hsub | exact Hwf].
Qed.

Lemma steady_remove i : steady (viewContainer (ViewContainerRef.remove i)).
Proof.
  apply steady_viewContainer. intros vc. eexists. split; [reflexivity |].
  apply remove_views.
Qed.

Lemma steady_get i : steady (viewContainer (ViewContainerRef.get i)).
Proof.
  apply steady_viewContainer. intros vc. eexists. split; reflexivity.
Qed.

Lemma steady_move view j : steady (viewContainer (ViewContainerRef.move view j)).
Proof.
  apply steady_viewContainer. intros vc. eexists. split; [apply move_views |].
  reflexivity.
Qed.

(** Writing a field of a context. *)
Lemma steady_alter (f : NgForOf -> NgForOfContext -> NgForOfContext)
    (address : ViewContainerRef.ObjRef) :
  steady (assign (fun self => with_heap (alter (f self) address (heap self)) self)).
Proof.
  intros self Hwf. split; [| reflexivity].
  unfold well_formed, assign, state_after. simpl.
  rewrite length_alter. exact Hwf.
Qed.

Lemma steady_applyViewChange view record : steady (applyViewChange view record).
Proof.
  destruct view as [v |]; simpl; [| apply steady_throw].
  apply (steady_alter (fun _ => set_implicit (item record))).
Qed.

(** Allocating a context and attaching a view made on it. *)
Lemma steady_new_view (c : NgForOfContext) (t : JsValue) (i : option nat)
    (k : ViewContainerRef.EmbeddedViewRef -> Eff NgForOf unit) :
  (forall v, steady (k v)) ->
  steady (ctx <- new_NgForOfContext c ;;
          view <- viewContainer (ViewContainerRef.createEmbeddedView t ctx i) ;;
          k view)%js.
Proof.
  intros Hk self Hwf.
  rewrite (bind_Normal (new_NgForOfContext c) _ self
             (with_heap (heap self ++ [c]) self) (List.length (heap self)) eq_refl).
  set (self1 := with_heap (heap self ++ [c]) self).
  set (ctx := List.length (heap self)).
  assert (Hwf1 : well_formed
                   (state_after
                      (viewContainer (ViewContainerRef.createEmbeddedView t ctx i) self1))).
  { rewrite viewContainer_state. unfold well_formed. simpl.
    rewrite length_app. simpl. rewrite Nat.add_1_r.
    destruct (createEmbeddedView_views t ctx i (_viewContainer self))
      as [-> | (v & Hv & Hperm)].
    - eapply distinct_contexts_mono; [| exact Hwf]. lia.
    - eapply distinct_contexts_Permutation; [symmetry; exact Hperm |].
      apply distinct_contexts_cons_fresh; [exact Hv | exact Hwf]. }
  assert (Hvalue : _ngForOf
                     (state_after
                        (viewContainer (ViewContainerRef.createEmbeddedView t ctx i) self1))
                   = _ngForOf self).
  { rewrite viewContainer_state. reflexivity. }
  destruct (bind_cases (viewContainer (ViewContainerRef.createEmbeddedView t ctx i))
              (fun view => k view) self1)
    as [(e & s1 & Hms & ->) | (a & s1 & Hms & ->)];
    rewrite Hms in Hwf1, Hvalue; simpl in Hwf1, Hvalue.
  - split; assumption.
  - destruct (Hk a s1 Hwf1) as [Hwf2 Hv2]. split; [exact Hwf2 | congruence].
Qed.

Lemma steady_forEachOperation_callback op : steady (forEachOperation_callback op).
Proof.
  destruct op as [[item_ adjusted] current]. unfold forEachOperation_callback.
  destruct (is_null (previousIndex item_)).
  - apply steady_bind; [apply steady_this | intros self].
    apply steady_new_view. intros v. apply steady_ret.
  - destruct current as [current |]; [| apply steady_remove].
    destruct (negb (is_null adjusted)); [| apply steady_ret].
    apply steady_bind; [apply steady_get | intros view].
    apply steady_bind; [apply steady_move | intros _].
    apply steady_applyViewChange.
Qed.

Lemma steady_renumber ilen i : steady (renumber ilen i).
Proof.
  unfold renumber. apply steady_bind; [apply steady_get | intros [v |]].
  - apply steady_bind;
      [apply (steady_alter (fun _ => set_index (Z.of_nat i))) | intros _].
    apply steady_bind;
      [apply (steady_alter (fun _ => set_count (Z.of_nat ilen))) | intros _].
    apply (steady_alter (fun self => set_ngForOf_field (_ngForOf self))).
  - apply steady_throw.
Qed.

Lemma steady_forEachIdentityChange_callback record :
  steady (forEachIdentityChange_callback record).
Proof.
  unfold forEachIdentityChange_callback.
  apply steady_bind; [apply steady_get | intros view].
  apply steady_applyViewChange.
Qed.

(** [_applyChanges] keeps the directive well formed, however it ends. *)
Lemma steady_applyChanges changes : steady (_applyChanges changes).
Proof.
  unfold _applyChanges.
  apply steady_bind;
    [apply steady_for_each, steady_forEachOperation_callback | intros _].
  apply steady_bind; [apply steady_this | intros self].
  apply steady_bind; [apply steady_for_each, steady_renumber | intros _].
  apply steady_for_each, steady_forEachIdentityChange_callback.
Qed.

(** One turn of the [for] loop, on a position inside the container. *)
Lemma renumber_at (n i : nat) (self : NgForOf) (v : ViewContainerRef.EmbeddedViewRef) :
  ViewContainerRef.views (_viewContainer self) !! i = Some v ->
  exists self',
    renumber n i self = (Normal tt, self')
    /\ ViewContainerRef.views (_viewContainer self')
       = ViewContainerRef.views (_viewContainer self)
    /\ _ngForOf self' = _ngForOf self
    /\ heap self'
       = alter (stamp i n (_ngForOf self)) (ViewContainerRef.context v) (heap self).
Proof.
  intros Hv.
  unfold renumber, bind, viewContainer, zoom, ViewContainerRef.get, assign. simpl.
  rewrite Hv. eexists. split; [reflexivity |]. simpl.
  repeat split. rewrite !list_alter_alter_eq. reflexivity.
Qed.

(** The whole loop: it completes, moves no view, and leaves the contexts of
    the positions it has visited numbered, the others as they were. *)
Lemma renumber_loop (n len : nat) :
  forall (start : nat) (self : NgForOf),
    well_formed self ->
    (start + len <= List.length (ViewContainerRef.views (_viewContainer self)))%nat ->
    exists self',
      for_each (renumber n) (seq start len) self = (Normal tt, self')
      /\ ViewContainerRef.views (_viewContainer self')
         = ViewContainerRef.views (_viewContainer self)
      /\ _ngForOf self' = _ngForOf self
      /\ List.length (heap self') = List.length (heap self)
      /\ (forall r,
           (forall j v, (start <= j < start + len)%nat ->
                        ViewContainerRef.views (_viewContainer self) !! j = Some v ->
                        ViewContainerRef.context v <> r) ->
           heap self' !! r = heap self !! r)
      /\ (forall j, (start <= j < start + len)%nat ->
                    numbered self' n (_ngForOf self) j).
Proof.
  induction len as [| len IH]; intros start self Hwf Hlen; simpl.
  - exists self. repeat split; try reflexivity. intros j Hj. lia.
  - destruct (lookup_lt_is_Some_2 (ViewContainerRef.views (_viewContainer self)) start)
      as [v Hv]; [lia |].
    destruct (renumber_at n start self v Hv) as (s1 & Hrun & Hviews1 & Hval1 & Hheap1).
    assert (Hwf1 : well_formed s1).
    { unfold well_formed. rewrite Hviews1, Hheap1, length_alter. exact Hwf. }
    destruct (IH (S start) s1 Hwf1)
      as (s2 & Hrun2 & Hviews2 & Hval2 & Hlen2 & Hout2 & Hnum2).
    { rewrite Hviews1. lia. }
    exists s2. rewrite (bind_Normal _ _ _ _ _ Hrun).
    split; [exact Hrun2 |].
    split; [congruence |].
    split; [congruence |].
    split; [rewrite Hlen2, Hheap1, length_alter; reflexivity |].
    split.
    + intros r Hr. rewrite Hout2.
      * rewrite Hheap1. apply list_lookup_alter_ne.
        apply (Hr start v); [lia | exact Hv].
      * intros j w Hj Hw. rewrite Hviews1 in Hw. apply (Hr j w); [lia | exact Hw].
    + intros j Hj. destruct (decide (j = start)) as [-> | Hne].
      * intros w Hw. rewrite Hviews2, Hviews1, Hv in Hw. injection Hw as <-.
        destruct Hwf as [Hnd Hall].
        rewrite Hout2.
        -- rewrite Hheap1, list_lookup_alter_eq.
           rewrite Forall_forall in Hall.
           destruct (lookup_lt_is_Some_2 (heap self) (ViewContainerRef.context v))
             as [c0 Hc0].
           { apply Hall. eapply list_elem_of_lookup_2, Hv. }
           rewrite Hc0. simpl. eexists. split; [reflexivity |].
           repeat split.
        -- intros j' w' Hj' Hw' Heq. rewrite Hviews1 in Hw'.
           assert (j' = start); [| lia].
           apply (NoDup_lookup _ j' start (ViewContainerRef.context v) Hnd).
           ++ rewrite list_lookup_fmap, Hw'. simpl. congruence.
           ++ rewrite list_lookup_fmap, Hv. reflexivity.
      * rewrite <- Hval1. apply Hnum2. lia.
Qed.

Lemma same_numbers_refl h : same_numbers h h.
Proof. intros r c H. exists c. auto. Qed.

Lemma same_numbers_trans h1 h2 h3 :
  same_numbers h1 h2 -> same_numbers h2 h3 -> same_numbers h1 h3.
Proof.
  intros H12 H23 r c H.
  destruct (H12 r c H) as (c2 & H2 & Hi & Hc & Hf).
  destruct (H23 r c2 H2) as (c3 & H3 & Hi' & Hc' & Hf').
  exists c3. repeat split; congruence.
Qed.

Lemma relabels_bind {A B} (m : Eff NgForOf A) (k : A -> Eff NgForOf B) :
  relabels m -> (forall a, relabels (k a)) -> relabels (bind m k).
Proof.
  intros Hm Hk self. specialize (Hm self).
  destruct (bind_cases m k self) as [(e & s1 & Hms & ->) | (a & s1 & Hms & ->)];
    rewrite Hms in Hm; simpl in Hm.
  - exact Hm.
  - destruct Hm as [Hviews Hheap]. destruct (Hk a s1) as [Hviews' Hheap'].
    split; [congruence |]. eapply same_numbers_trans; eassumption.
Qed.

Lemma relabels_ret {A} (a : A) : relabels (ret a).
Proof. intros self. split; [reflexivity | apply same_numbers_refl]. Qed.

Lemma relabels_for_each {A} (body : A -> Eff NgForOf unit) (xs : list A) :
  (forall x, relabels (body x)) -> relabels (for_each body xs).
Proof.
  intros Hbody. induction xs as [| x xs IH]; simpl.
  - apply relabels_ret.
  - apply relabels_bind; [apply Hbody | intros _; exact IH].
Qed.

Lemma relabels_forEachIdentityChange_callback record :
  relabels (forEachIdentityChange_callback record).
Proof.
  unfold forEachIdentityChange_callback. apply relabels_bind.
  - intros self. rewrite viewContainer_state. split; [reflexivity |].
    apply same_numbers_refl.
  - intros [v |]; simpl.
    + intros self. split; [reflexivity |]. unfold assign, state_after. simpl.
      intros r c Hc.
      destruct (decide (ViewContainerRef.context v = r)) as [-> | Hne].
      * rewrite list_lookup_alter_eq, Hc. simpl. eexists. split; [reflexivity |].
        repeat split.
      * rewrite list_lookup_alter_ne by exact Hne. exists c. auto.
    + intros self. split; [reflexivity | apply same_numbers_refl].
Qed.

(** C4.  After every completed call of [_applyChanges] on a directive whose
    views hold distinct contexts, for every position [i] below the length of
    the view container, the context of the view at [i] has [index = i],
    [count] equal to the length of the container and [ngForOf] equal to the
    current iterable value; in particular no view keeps the [-1] it was
    created with, in [index] or in [count].  Distinctness of the contexts
    holds in a new directive on an empty container and is kept by
    [_applyChanges]. *)
Theorem applyChanges_numbers_views
    (changes : IterableChanges) (self self' : NgForOf) :
  well_formed self ->
  _applyChanges changes self = (Normal tt, self') ->
  well_formed self'
  /\ forall i view,
      ViewContainerRef.views (_viewContainer self') !! i = Some view ->
      exists c,
        heap self' !! ViewContainerRef.context view = Some c
        /\ index c = Z.of_nat i
        /\ count c = Z.of_nat (ViewContainerRef.length (_viewContainer self'))
        /\ ngForOf c = _ngForOf self'
        /\ index c <> (-1)%Z /\ count c <> (-1)%Z.
Proof.
  intros Hwf Hrun.
  pose proof (steady_applyChanges changes self Hwf) as [Hwf' Hvalue].
  rewrite Hrun in Hwf', Hvalue. simpl in Hwf', Hvalue.
  split; [exact Hwf' |].
  unfold _applyChanges in Hrun.
  apply bind_Normal_inv in Hrun as ([] & s1 & Hops & Hrun).
  apply bind_Normal_inv in Hrun as (s1' & s1'' & Hthis & Hrun).
  injection Hthis as <- <-.
  apply bind_Normal_inv in Hrun as ([] & s2 & Hloop & Hids).
  pose proof (steady_for_each _ (operations changes)
                steady_forEachOperation_callback self Hwf) as [Hwf1 Hvalue1].
  rewrite Hops in Hwf1, Hvalue1. simpl in Hwf1, Hvalue1.
  destruct (renumber_loop (ViewContainerRef.length (_viewContainer s1))
              (ViewContainerRef.length (_viewContainer s1)) 0 s1 Hwf1)
    as (s2' & Hloop' & Hviews2 & Hvalue2 & _ & _ & Hnum); [reflexivity |].
  rewrite Hloop in Hloop'. injection Hloop' as <-.
  pose proof (relabels_for_each _ (identityChanges changes)
                relabels_forEachIdentityChange_callback s2) as [Hviews3 Hsame].
  rewrite Hids in Hviews3, Hsame. simpl in Hviews3, Hsame.
  intros i view Hview.
  assert (Hi : (i < ViewContainerRef.length (_viewContainer s1))%nat).
  { unfold ViewContainerRef.length. rewrite <- Hviews2, <- Hviews3.
    eapply lookup_lt_Some, Hview. }
  rewrite Hviews3 in Hview.
  destruct (Hnum i ltac:(lia) view Hview) as (c & Hc & Hindex & Hcount & Hof).
  destruct (Hsame _ _ Hc) as (c' & Hc' & Hindex' & Hcount' & Hof').
  exists c'. split; [exact Hc' |].
  assert (Hlen : ViewContainerRef.length (_viewContainer self')
                 = ViewContainerRef.length (_viewContainer s1)).
  { unfold ViewContainerRef.length. congruence. }
  rewrite Hlen.
  split; [congruence |]. split; [congruence |]. split; [congruence |].
  split; lia.
Qed.

Lemma applyChanges_numbers_views_witness :
  exists c,
    heap (state_after (_applyChanges Samples.two_rows Samples.fresh_NgForOf)) !! 1%nat
      = Some c
    /\ index c = 1%Z /\ count c = 2%Z.
Proof.
  assert (Hwf : well_formed Samples.fresh_NgForOf) by (split; constructor).
  assert (Hrun : _applyChanges Samples.two_rows Samples.fresh_NgForOf
                 = (Normal tt,
                    state_after (_applyChanges Samples.two_rows Samples.fresh_NgForOf)))
    by (vm_compute; reflexivity).
  assert (Hview :
            ViewContainerRef.views
              (_viewContainer
                 (state_after (_applyChanges Samples.two_rows Samples.fresh_NgForOf)))
              !! 1%nat
            = Some {| ViewContainerRef.view_id := 1;
                      ViewContainerRef.view_template := Samples.templateRef "row";
                      ViewContainerRef.context := 1 |})
    by (vm_compute; reflexivity).
  destruct (proj2 (applyChanges_numbers_views _ _ _ Hwf Hrun) _ _ Hview)
    as (c & Hc & Hindex & Hcount & _).
  exists c. split; [exact Hc |]. split; [exact Hindex | exact Hcount].
Defined.

(** A new directive on an empty container is well formed, and every method
    keeps it so. *)
Lemma well_formed_constructor t ds :
  well_formed (constructor ViewContainerRef.empty t ds).
Proof. split; constructor. Qed.

Lemma steady_ngDoCheck env : steady (ngDoCheck env).
Proof.
  assert (Hfind : forall value, steady (find_and_create value)).
  { intros value self Hwf. pose proof (find_and_create_spec value self) as H.
    destruct (differ_available self value).
    - destruct H as [d ->]. split; [exact Hwf | reflexivity].
    - destruct H as [w ->]. split; [exact Hwf | reflexivity]. }
  unfold ngDoCheck.
  apply steady_bind; [apply steady_this | intros self].
  apply steady_bind.
  - destruct (_ngForOfDirty self); [| apply steady_ret].
    apply steady_bind; [intros s Hs; split; [exact Hs | reflexivity] | intros _].
    destruct (is_null (_differ self) && truthy (_ngForOf self)); [| apply steady_ret].
    destruct (dev_mode env); [| apply Hfind].
    intros s Hs. destruct (Hfind (_ngForOf self) s Hs) as [Hwf Hv].
    unfold try_catch.
    destruct (find_and_create (_ngForOf self) s) as [[a | e] s1];
      [split; assumption |].
    rewrite differ_not_found_state. split; assumption.
  - intros _. apply steady_bind; [apply steady_this | intros self'].
    destruct (_differ self') as [differ |]; [| apply steady_ret].
    apply steady_bind.
    + intros s Hs. unfold zoom, diff.
      destruct (differ_diff differ _ _) as [r st]. split; [exact Hs | reflexivity].
    + intros [changes |]; [apply steady_applyChanges | apply steady_ret].
Qed.

(** Every reachable directive is well formed. *)
Lemma reachable_well_formed (self : NgForOf) : reachable self -> well_formed self.
Proof.
  induction 1 as [t ds | value self _ IH | env fn self _ IH | value self _ IH
                  | env self _ IH].
  - apply well_formed_constructor.
  - exact IH.
  - destruct (set_ngForTrackBy_spec env fn self) as [(e & _ & ->) | [-> | ->]];
      exact IH.
  - unfold set_ngForTemplate, assign, ret, state_after.
    destruct (truthy value); exact IH.
  - apply steady_ngDoCheck, IH.
Qed.

(** *** What the methods leave alone *)

Lemma ngDoCheck_statements (env : Globals) (self : NgForOf) :
  ngDoCheck env self
  = bind (ngDoCheck_lookup env) (fun _ => ngDoCheck_apply) self.
Proof. reflexivity. Qed.

Section Frame.
Variable R : NgForOf -> NgForOf -> Prop.
Hypothesis R_refl : forall s, R s s.
Hypothesis R_trans : forall a b c, R a b -> R b c -> R a c.
Hypothesis R_container : forall vc s, R s (with_viewContainer vc s).
Hypothesis R_heap : forall h s, R s (with_heap h s).

Lemma respects_viewContainer {A} (method : Eff ViewContainerRef.t A) :
  respects R (viewContainer method).
Proof. intros s. rewrite viewContainer_state. apply R_container. Qed.

Lemma respects_heap_write (f : NgForOf -> list NgForOfContext) :
  respects R (assign (fun self => with_heap (f self) self)).
Proof. intros s. apply R_heap. Qed.

Lemma respects_new_NgForOfContext c : respects R (new_NgForOfContext c).
Proof. intros s. apply R_heap. Qed.

Lemma respects_applyViewChange view record :
  respects R (applyViewChange view record).
Proof.
  destruct view as [v |]; simpl.
  - apply (respects_heap_write
             (fun self => alter (set_implicit (item record))
                                (ViewContainerRef.context v) (heap self))).
  - apply respects_throw, R_refl.
Qed.

Lemma respects_forEachOperation_callback op :
  respects R (forEachOperation_callback op).
Proof.
  destruct op as [[item_ adjusted] current]. unfold forEachOperation_callback.
  destruct (is_null (previousIndex item_)).
  - apply respects_bind; [assumption | apply respects_this, R_refl | intros self].
    apply respects_bind; [assumption | apply respects_new_NgForOfContext | intros ctx].
    apply respects_bind; [assumption | apply respects_viewContainer | intros v].
    apply respects_ret, R_refl.
  - destruct current as [current |]; [| apply respects_viewContainer].
    destruct (negb (is_null adjusted)); [| apply respects_ret, R_refl].
    apply respects_bind; [assumption | apply respects_viewContainer | intros view].
    apply respects_bind; [assumption | apply respects_viewContainer | intros _].
    apply respects_applyViewChange.
Qed.

Lemma respects_renumber ilen i : respects R (renumber ilen i).
Proof.
  unfold renumber.
  apply respects_bind; [assumption | apply respects_viewContainer | intros [v |]].
  - apply respects_bind; [assumption | | intros _].
    { apply (respects_heap_write
               (fun self => alter (set_index (Z.of_nat i))
                                  (ViewContainerRef.context v) (heap self))). }
    apply respects_bind; [assumption | | intros _].
    { apply (respects_heap_write
               (fun self => alter (set_count (Z.of_nat ilen))
                                  (ViewContainerRef.context v) (heap self))). }
    apply (respects_heap_write
             (fun self => alter (set_ngForOf_field (_ngForOf self))
                                (ViewContainerRef.context v) (heap self))).
  - apply respects_throw, R_refl.
Qed.

Lemma respects_forEachIdentityChange_callback record :
  respects R (forEachIdentityChange_callback record).
Proof.
  unfold forEachIdentityChange_callback.
  apply respects_bind; [assumption | apply respects_viewContainer | intros view].
  apply respects_applyViewChange.
Qed.

(** [_applyChanges] respects whatever does not look at the container or at
    the contexts. *)
Lemma respects_applyChanges changes : respects R (_applyChanges changes).
Proof.
  unfold _applyChanges.
  apply respects_bind; [assumption | | intros _].
  { apply respects_for_each; [assumption .. |].
    apply respects_forEachOperation_callback. }
  apply respects_bind; [assumption | apply respects_this, R_refl | intros self].
  apply respects_bind; [assumption | | intros _].
  { apply respects_for_each; [assumption .. |]. apply respects_renumber. }
  apply respects_for_each; [assumption .. |].
  apply respects_forEachIdentityChange_callback.
Qed.

Hypothesis R_differ :
  forall s d st,
    _differ s = Some d ->
    R s (with_differ (Some {| differ_state := st; differ_diff := differ_diff d |}) s).

Lemma respects_ngDoCheck_apply : respects R ngDoCheck_apply.
Proof.
  unfold ngDoCheck_apply. apply respects_bind_this. intros s.
  destruct (_differ s) as [d |] eqn:Hd; [| apply R_refl].
  apply respects_bind_at; [assumption | |].
  - unfold zoom, diff, state_after.
    destruct (differ_diff d (_ngForOf s) (differ_state d)) as [r st]. simpl.
    apply R_differ, Hd.
  - intros [changes |]; [apply respects_applyChanges | apply respects_ret, R_refl].
Qed.

Hypothesis R_dirty : forall s, R s (with_ngForOfDirty false s).
Hypothesis R_create :
  forall s d, _differ s = None -> R s (with_differ (Some d) s).

Lemma respects_ngDoCheck_lookup env : respects R (ngDoCheck_lookup env).
Proof.
  unfold ngDoCheck_lookup. apply respects_bind_this. intros s.
  destruct (_ngForOfDirty s); [| apply R_refl].
  rewrite (bind_Normal (assign (with_ngForOfDirty false)) _ s
             (with_ngForOfDirty false s) tt eq_refl).
  apply (R_trans _ (with_ngForOfDirty false s)); [apply R_dirty |].
  destruct (_differ s) as [d |] eqn:Hd; simpl; [apply R_refl |].
  destruct (truthy (_ngForOf s)); [| apply R_refl].
  pose proof (find_and_create_spec (_ngForOf s) (with_ngForOfDirty false s)) as H.
  unfold try_catch.
  destruct (differ_available (with_ngForOfDirty false s) (_ngForOf s)).
  - destruct H as [differ H]. destruct (dev_mode env); rewrite H; simpl;
      apply R_create, Hd.
  - destruct H as [what H]. destruct (dev_mode env); rewrite H; cbv beta iota;
      rewrite ?differ_not_found_state; apply R_refl.
Qed.

(** [ngDoCheck] respects whatever does not look at the container, the
    contexts, the dirty flag or the state of the differ. *)
Lemma respects_ngDoCheck env : respects R (ngDoCheck env).
Proof.
  intros s. rewrite ngDoCheck_statements.
  apply respects_bind_at; [assumption | apply respects_ngDoCheck_lookup |].
  intros _. apply respects_ngDoCheck_apply.
Qed.
End Frame.

Lemma same_inputs_ngDoCheck env : respects same_inputs (ngDoCheck env).
Proof.
  apply respects_ngDoCheck; unfold same_inputs; simpl; intros; try tauto.
  intuition congruence.
Qed.

Lemma differ_kept_ngDoCheck env : respects differ_kept (ngDoCheck env).
Proof.
  apply respects_ngDoCheck; unfold differ_kept; simpl.
  - intros s [st f] ->. eauto.
  - intros a b c Hab Hbc d Hd.
    destruct (Hab d Hd) as [st Hb]. destruct (Hbc _ Hb) as [st' Hc].
    exists st'. exact Hc.
  - intros vc s [st f] ->. eauto.
  - intros h s [st f] ->. eauto.
  - intros s d st Hd d' Hd'. rewrite Hd in Hd'. injection Hd' as <-. eauto.
  - intros s [st f] ->. eauto.
  - intros s d Hnone d' Hd'. congruence.
Qed.

(** X7.  Setter and getter of [ngForTrackBy] round-trip: whenever the setter
    returns, the getter answers the very value that was given, whatever it
    is; and when the setter throws, the directive is exactly as before, so
    the getter answers the previous value. *)
Theorem ngForTrackBy_round_trip (env : Globals) (fn : JsValue) (self : NgForOf) :
  (throws (set_ngForTrackBy env fn self) = false ->
     get_ngForTrackBy (state_after (set_ngForTrackBy env fn self)) = fn)
  /\ (throws (set_ngForTrackBy env fn self) = true ->
     state_after (set_ngForTrackBy env fn self) = self).
Proof.
  destruct (set_ngForTrackBy_spec env fn self) as [(e & _ & ->) | [-> | ->]];
    split; intros H; try discriminate H; reflexivity.
Qed.

Lemma ngForTrackBy_round_trip_witness :
  get_ngForTrackBy
    (state_after (set_ngForTrackBy Samples.dev_env (JsString "id") Samples.fresh_NgForOf))
  = JsString "id"
  /\ state_after (set_ngForTrackBy Samples.dev_env (JsBigInt 1) Samples.fresh_NgForOf)
     = Samples.fresh_NgForOf.
Proof.
  split.
  - apply (proj1 (ngForTrackBy_round_trip Samples.dev_env (JsString "id")
                    Samples.fresh_NgForOf)).
    reflexivity.
  - apply (proj2 (ngForTrackBy_round_trip Samples.dev_env (JsBigInt 1)
                    Samples.fresh_NgForOf)).
    reflexivity.
Defined.

(** A console whose [warn] member is no function cannot take the warning:
    the setter throws, and stores nothing. *)
Example set_ngForTrackBy_with_a_console_that_cannot_warn :
  let env := {| ngDevMode := None; console := JsObject [("warn", JsNumber 5)];
                run_toString := fun _ => Returned "[object Object]";
                run_toJSON := fun _ => Returned "{}";
                run_warn := fun _ => Returned tt |} in
  set_ngForTrackBy env (JsString "id") Samples.fresh_NgForOf
  = (Throw (TypeError "console.warn is not a function"), Samples.fresh_NgForOf).
Proof. reflexivity. Qed.

(** X8.  [ngDoCheck] never writes to the inputs of the directive nor to the
    console: however it ends, [_template], [_differs], [_ngForOf] and
    [_trackByFn] are what they were, and nothing has been passed to
    [console.warn]. *)
Theorem ngDoCheck_leaves_inputs (env : Globals) (self : NgForOf) :
  let after := state_after (ngDoCheck env self) in
  _template after = _template self
  /\ _differs after = _differs self
  /\ _ngForOf after = _ngForOf self
  /\ _trackByFn after = _trackByFn self
  /\ warned after = warned self.
Proof. apply same_inputs_ngDoCheck. Qed.

(** X9.  After [ngDoCheck] the dirty flag is clear, however the call ended;
    and when the call has left the directive without a differ, a further
    [ngDoCheck] does nothing at all and does not throw, until [ngForOf] is
    set again. *)
Theorem ngDoCheck_clears_dirty (env : Globals) (self : NgForOf) :
  let after := state_after (ngDoCheck env self) in
  _ngForOfDirty after = false
  /\ (_differ after = None -> ngDoCheck env after = (Normal tt, after)).
Proof.
  assert (Hclean : _ngForOfDirty (state_after (ngDoCheck env self)) = false).
  { rewrite ngDoCheck_statements.
    assert (Hlookup : _ngForOfDirty (state_after (ngDoCheck_lookup env self)) = false).
    { unfold ngDoCheck_lookup.
      rewrite (bind_Normal this _ self self self eq_refl).
      destruct (_ngForOfDirty self) eqn:Hd; [| exact Hd].
      rewrite (bind_Normal (assign (with_ngForOfDirty false)) _ self
                 (with_ngForOfDirty false self) tt eq_refl).
      destruct (is_null (_differ self) && truthy (_ngForOf self)); [| reflexivity].
      pose proof (find_and_create_spec (_ngForOf self) (with_ngForOfDirty false self))
        as H.
      unfold try_catch.
      destruct (differ_available (with_ngForOfDirty false self) (_ngForOf self)).
      - destruct H as [differ H]. destruct (dev_mode env); rewrite H; reflexivity.
      - destruct H as [what H]. destruct (dev_mode env); rewrite H; cbv beta iota;
          rewrite ?differ_not_found_state; reflexivity. }
    pose proof (respects_ngDoCheck_apply
                  (fun s s' => _ngForOfDirty s' = _ngForOfDirty s)) as Happly.
    destruct (bind_cases (ngDoCheck_lookup env) (fun _ => ngDoCheck_apply) self)
      as [(e & s1 & Hms & ->) | (a & s1 & Hms & ->)];
      rewrite Hms in Hlookup; simpl in Hlookup.
    - exact Hlookup.
    - rewrite Happly; [exact Hlookup | | | | |]; simpl; intros; congruence. }
  split; [exact Hclean |].
  intros Hnone.
  destruct (state_after (ngDoCheck env self)) as [vc t ds v dirty differ fn h w].
  simpl in Hclean, Hnone. subst dirty differ. reflexivity.
Qed.

Lemma ngDoCheck_clears_dirty_witness :
  ngDoCheck Samples.dev_env Samples.NgForOf_after_failed_check
  = (Normal tt, Samples.NgForOf_after_failed_check).
Proof.
  apply (proj2 (ngDoCheck_clears_dirty Samples.dev_env
                  (state_after (set_ngForOf (JsNumber 5) Samples.fresh_NgForOf)))).
  reflexivity.
Defined.

(** X10.  A differ, once created, is never replaced: if the directive has a
    differ before [ngDoCheck], it has the same differ object afterwards, with
    the same [diff] method, whatever the [ngForOf] value, the registry or the
    [trackBy] function have become in the meantime. *)
Theorem ngDoCheck_keeps_differ (env : Globals) (self : NgForOf)
    (d : IterableDiffer) :
  _differ self = Some d ->
  exists st,
    _differ (state_after (ngDoCheck env self))
    = Some {| differ_state := st; differ_diff := differ_diff d |}.
Proof. apply (differ_kept_ngDoCheck env self). Qed.

Lemma ngDoCheck_keeps_differ_witness :
  exists st,
    _differ (state_after
               (ngDoCheck Samples.dev_env
                  (state_after (set_ngForOf (JsNumber 5) Samples.NgForOf_with_two_rows))))
    = Some {| differ_state := st;
              differ_diff := differ_diff Samples.first_time_differ |}.
Proof.
  destruct (ngDoCheck_keeps_differ Samples.dev_env
              (state_after (set_ngForOf (JsNumber 5) Samples.NgForOf_with_two_rows))
              {| differ_state := JsArray [JsString "a"; JsString "b"];
                 differ_diff := differ_diff Samples.first_time_differ |} eq_refl)
    as [st H].
  exists st. exact H.
Defined.

(** X11.  When the differ of the directive reports no change, [ngDoCheck]
    returns without calling the view container and without touching any
    context. *)
Theorem ngDoCheck_without_changes (env : Globals) (self : NgForOf)
    (d : IterableDiffer) :
  _differ self = Some d ->
  fst (differ_diff d (_ngForOf self) (differ_state d)) = Returned None ->
  outcome (ngDoCheck env self) = Normal tt
  /\ _viewContainer (state_after (ngDoCheck env self)) = _viewContainer self
  /\ heap (state_after (ngDoCheck env self)) = heap self.
Proof.
  destruct self as [vc t ds v dirty differ fn h w]. simpl.
  intros -> Hdiff.
  unfold ngDoCheck, bind, this, assign, ret, zoom, diff. simpl.
  destruct dirty; simpl;
    destruct (differ_diff d v (differ_state d)) as [r st]; simpl in *; subst r;
    simpl; auto.
Qed.

Lemma ngDoCheck_without_changes_witness :
  _viewContainer (state_after (ngDoCheck Samples.dev_env Samples.NgForOf_with_two_rows))
  = _viewContainer Samples.NgForOf_with_two_rows.
Proof.
  apply (ngDoCheck_without_changes Samples.dev_env Samples.NgForOf_with_two_rows
           {| differ_state := JsArray [JsString "a"; JsString "b"];
              differ_diff := differ_diff Samples.first_time_differ |});
    reflexivity.
Defined.

(** X12.  The template of the directive is never lost: [ngForTemplate]
    ignores a falsy value, and no other input nor [ngDoCheck] writes
    [_template]; so a directive that has a truthy template has one after
    every use. *)
Theorem template_is_never_lost (env : Globals) (u : Use) (self : NgForOf) :
  truthy (_template self) = true ->
  truthy (_template (state_after (use env u self))) = true.
Proof.
  intros Ht. destruct u as [value | fn | value |]; simpl.
  - exact Ht.
  - destruct (set_ngForTrackBy_spec env fn self) as [(e & _ & ->) | [-> | ->]];
      exact Ht.
  - unfold set_ngForTemplate, assign, ret, state_after.
    destruct (truthy value) eqn:Hv; simpl; [exact Hv | exact Ht].
  - destruct (same_inputs_ngDoCheck env self) as [-> _]. exact Ht.
Qed.

Lemma template_is_never_lost_witness :
  truthy (_template
            (state_after
               (use Samples.dev_env (ngForTemplate_input JsNull) Samples.fresh_NgForOf)))
  = true.
Proof.
  apply (template_is_never_lost Samples.dev_env (ngForTemplate_input JsNull)
           Samples.fresh_NgForOf).
  reflexivity.
Defined.

(** *** Counting the views *)

Lemma viewContainer_Normal {A} (method : Eff ViewContainerRef.t A)
    (s s' : NgForOf) (a : A) :
  viewContainer method s = (Normal a, s') ->
  exists vc', method (_viewContainer s) = (Normal a, vc')
              /\ s' = with_viewContainer vc' s.
Proof.
  unfold viewContainer, zoom. destruct (method (_viewContainer s)) as [r vc'].
  intros [= -> <-]. eauto.
Qed.

Lemma length_insert_at {A} (i : nat) (x : A) (l : list A) :
  List.length (ViewContainerRef.insert_at i x l) = S (List.length l).
Proof. apply (Permutation_length (insert_at_Permutation i x l)). Qed.

Lemma createEmbeddedView_Normal t c i vc v vc' :
  ViewContainerRef.createEmbeddedView t c i vc = (Normal v, vc') ->
  ViewContainerRef.length vc' = S (ViewContainerRef.length vc).
Proof.
  unfold ViewContainerRef.createEmbeddedView, ViewContainerRef.length. simpl.
  destruct (truthy t); [| discriminate].
  destruct (_ <=? _)%nat; [| discriminate].
  intros [= _ <-]. simpl. apply length_insert_at.
Qed.

Lemma remove_Normal i vc vc' :
  ViewContainerRef.remove i vc = (Normal tt, vc') ->
  S (ViewContainerRef.length vc') = ViewContainerRef.length vc.
Proof.
  unfold ViewContainerRef.remove, ViewContainerRef.length. simpl.
  destruct (_ <? _)%nat eqn:Hlt; [| discriminate].
  intros [= <-]. simpl. apply Nat.ltb_lt in Hlt.
  rewrite length_delete by (apply lookup_lt_is_Some_2; exact Hlt). lia.
Qed.

Lemma move_length view j vc :
  ViewContainerRef.length (state_after (ViewContainerRef.move view j vc))
  = ViewContainerRef.length vc.
Proof. apply Permutation_length, move_views. Qed.

Lemma move_Normal view j vc vc' :
  ViewContainerRef.move view j vc = (Normal tt, vc') ->
  ViewContainerRef.length vc' = ViewContainerRef.length vc.
Proof.
  intros H. pose proof (move_length view j vc) as Hlen.
  rewrite H in Hlen. exact Hlen.
Qed.

Lemma applyViewChange_views view record s :
  _viewContainer (state_after (applyViewChange view record s)) = _viewContainer s.
Proof. destruct view; reflexivity. Qed.

(** One completed operation: an insertion adds a view, a removal takes one
    away, a move keeps the number. *)
Lemma forEachOperation_callback_count op (s s' : NgForOf) :
  forEachOperation_callback op s = (Normal tt, s') ->
  (ViewContainerRef.length (_viewContainer s') + (if removes op then 1 else 0)
   = ViewContainerRef.length (_viewContainer s) + (if inserts op then 1 else 0))%nat.
Proof.
  destruct op as [[item_ adjusted] current].
  unfold forEachOperation_callback, removes, inserts. cbn [fst snd].
  destruct (is_null (previousIndex item_)); simpl.
  - intros H.
    apply bind_Normal_inv in H as (self & s0 & [= <- <-] & H).
    apply bind_Normal_inv in H as (ctx & s1 & Hnew & H).
    unfold new_NgForOfContext in Hnew. injection Hnew as <- <-.
    apply bind_Normal_inv in H as (v & s2 & Hcreate & [= <-]).
    apply viewContainer_Normal in Hcreate as (vc' & Hcreate & ->).
    apply createEmbeddedView_Normal in Hcreate. simpl in *. lia.
  - destruct current as [current |]; simpl.
    + destruct adjusted as [adjusted |]; simpl; [| intros [= <-]; lia].
      intros H.
      apply bind_Normal_inv in H as (view & s1 & Hget & H).
      apply viewContainer_Normal in Hget as (vc1 & Hget & ->).
      injection Hget as <- <-.
      apply bind_Normal_inv in H as ([] & s2 & Hmove & H).
      apply viewContainer_Normal in Hmove as (vc2 & Hmove & ->).
      apply move_Normal in Hmove.
      match type of H with
      | applyViewChange ?view ?record ?s0 = _ =>
          pose proof (applyViewChange_views view record s0) as Hviews
      end.
      rewrite H in Hviews. simpl in Hviews. rewrite Hviews.
      unfold ViewContainerRef.length in *. simpl in *. lia.
    + intros H. apply viewContainer_Normal in H as (vc' & Hremove & ->).
      apply remove_Normal in Hremove. simpl. lia.
Qed.

Lemma for_each_operation_count ops :
  forall (s s' : NgForOf),
    for_each forEachOperation_callback ops s = (Normal tt, s') ->
    (ViewContainerRef.length (_viewContainer s') + count_of removes ops
     = ViewContainerRef.length (_viewContainer s) + count_of inserts ops)%nat.
Proof.
  unfold count_of.
  induction ops as [| op ops IH]; intros s s' H; simpl in *.
  - injection H as <-. lia.
  - apply bind_Normal_inv in H as ([] & s1 & Hop & Hrest).
    apply forEachOperation_callback_count in Hop. apply IH in Hrest.
    destruct (removes op), (inserts op); simpl; lia.
Qed.

Lemma same_views_renumber ilen i : respects same_views (renumber ilen i).
Proof.
  intros s. unfold renumber, same_views, bind, viewContainer, zoom,
    ViewContainerRef.get, state_after. simpl.
  destruct (ViewContainerRef.views (_viewContainer s) !! i); reflexivity.
Qed.

Lemma same_views_for_each {A} (body : A -> Eff NgForOf unit) (xs : list A) :
  (forall x, respects same_views (body x)) ->
  respects same_views (for_each body xs).
Proof.
  apply respects_for_each; unfold same_views; intros; congruence.
Qed.

(** X13.  A completed [_applyChanges] changes the number of views by the
    number of insertions minus the number of removals among the operations
    it was given: moves and identity changes neither add nor remove a
    view. *)
Theorem applyChanges_counts_views (changes : IterableChanges) (self self' : NgForOf) :
  _applyChanges changes self = (Normal tt, self') ->
  (ViewContainerRef.length (_viewContainer self')
   + count_of removes (operations changes)
   = ViewContainerRef.length (_viewContainer self)
     + count_of inserts (operations changes))%nat.
Proof.
  unfold _applyChanges. intros H.
  apply bind_Normal_inv in H as ([] & s1 & Hops & H).
  apply bind_Normal_inv in H as (s1' & s1'' & [= <- <-] & H).
  apply bind_Normal_inv in H as ([] & s2 & Hloop & Hids).
  apply for_each_operation_count in Hops.
  pose proof (same_views_for_each _ (seq 0 (ViewContainerRef.length (_viewContainer s1)))
                (same_views_renumber (ViewContainerRef.length (_viewContainer s1))) s1)
    as Hviews2.
  rewrite Hloop in Hviews2.
  pose proof (relabels_for_each _ (identityChanges changes)
                relabels_forEachIdentityChange_callback s2) as [Hviews3 _].
  rewrite Hids in Hviews3. unfold same_views in Hviews2. simpl in Hviews2, Hviews3.
  unfold ViewContainerRef.length in *. rewrite Hviews3, Hviews2. exact Hops.
Qed.

Lemma applyChanges_counts_views_witness :
  ViewContainerRef.length
    (_viewContainer (state_after (_applyChanges Samples.two_rows Samples.fresh_NgForOf)))
  = 2%nat.
Proof.
  assert (Hrun : _applyChanges Samples.two_rows Samples.fresh_NgForOf
                 = (Normal tt,
                    state_after (_applyChanges Samples.two_rows Samples.fresh_NgForOf)))
    by (vm_compute; reflexivity).
  pose proof (applyChanges_counts_views _ _ _ Hrun) as H.
  vm_compute in H. vm_compute. lia.
Defined.

(** *** Identity changes *)

Lemma forEachIdentityChange_callback_Normal record (s s' : NgForOf) :
  forEachIdentityChange_callback record s = (Normal tt, s') ->
  exists i v,
    currentIndex record = Some i
    /\ ViewContainerRef.views (_viewContainer s) !! i = Some v
    /\ ViewContainerRef.views (_viewContainer s')
       = ViewContainerRef.views (_viewContainer s)
    /\ heap s' = alter (set_implicit (item record)) (ViewContainerRef.context v) (heap s).
Proof.
  unfold forEachIdentityChange_callback. intros H.
  apply bind_Normal_inv in H as (view & s1 & Hget & H).
  apply viewContainer_Normal in Hget as (vc1 & Hget & ->).
  injection Hget as <- <-.
  destruct (currentIndex record) as [i |]; simpl in H; [| discriminate H].
  destruct (ViewContainerRef.views (_viewContainer s) !! i) as [v |] eqn:Hv;
    simpl in H; [| discriminate H].
  injection H as <-. exists i, v. repeat split. exact Hv.
Qed.

(** The loop over the identity changes writes only to the contexts of the
    views it is pointed at. *)
Lemma identity_loop_outside records :
  forall (s s' : NgForOf),
    for_each forEachIdentityChange_callback records s = (Normal tt, s') ->
    ViewContainerRef.views (_viewContainer s')
    = ViewContainerRef.views (_viewContainer s)
    /\ List.length (heap s') = List.length (heap s)
    /\ forall a,
        (forall r i w, r ∈ records -> currentIndex r = Some i ->
                       ViewContainerRef.views (_viewContainer s) !! i = Some w ->
                       ViewContainerRef.context w <> a) ->
        heap s' !! a = heap s !! a.
Proof.
  induction records as [| r0 records IH]; intros s s' H; simpl in H.
  - injection H as <-. auto.
  - apply bind_Normal_inv in H as ([] & s1 & H0 & Hrest).
    apply forEachIdentityChange_callback_Normal in H0
      as (i0 & v0 & Hi0 & Hv0 & Hviews1 & Hheap1).
    destruct (IH _ _ Hrest) as (Hviews & Hlen & Hout).
    split; [congruence |].
    split; [rewrite Hlen, Hheap1, length_alter; reflexivity |].
    intros a Ha. rewrite Hout.
    + rewrite Hheap1. apply list_lookup_alter_ne.
      apply (Ha r0 i0 v0); [left | exact Hi0 | exact Hv0].
    + intros r i w Hr Hi Hw. rewrite Hviews1 in Hw.
      apply (Ha r i w); [right; exact Hr | exact Hi | exact Hw].
Qed.

Lemma identity_loop records :
  forall (s s' : NgForOf),
    well_formed s ->
    NoDup (currentIndex <$> records) ->
    for_each forEachIdentityChange_callback records s = (Normal tt, s') ->
    forall r, r ∈ records ->
      exists i v c,
        currentIndex r = Some i
        /\ ViewContainerRef.views (_viewContainer s') !! i = Some v
        /\ heap s' !! ViewContainerRef.context v = Some c
        /\ implicit c = item r.
Proof.
  induction records as [| r0 records IH]; intros s s' Hwf Hnd H r Hr.
  - apply elem_of_nil in Hr. destruct Hr.
  - simpl in H. apply bind_Normal_inv in H as ([] & s1 & H0 & Hrest).
    apply forEachIdentityChange_callback_Normal in H0
      as (i0 & v0 & Hi0 & Hv0 & Hviews1 & Hheap1).
    rewrite fmap_cons in Hnd. apply NoDup_cons in Hnd as [Hnotin Hnd].
    assert (Hwf1 : well_formed s1).
    { unfold well_formed. rewrite Hviews1, Hheap1, length_alter. exact Hwf. }
    apply elem_of_cons in Hr as [-> | Hr]; [| exact (IH _ _ Hwf1 Hnd Hrest r Hr)].
    destruct (identity_loop_outside _ _ _ Hrest) as (Hviews & _ & Hout).
    destruct Hwf as [Hdistinct Hall].
    destruct (lookup_lt_is_Some_2 (heap s) (ViewContainerRef.context v0)) as [c0 Hc0].
    { rewrite Forall_forall in Hall. apply Hall.
      eapply list_elem_of_lookup_2, Hv0. }
    exists i0, v0, (set_implicit (item r0) c0).
    split; [exact Hi0 |]. split; [congruence |]. split; [| reflexivity].
    rewrite Hout.
    + rewrite Hheap1, list_lookup_alter_eq, Hc0. reflexivity.
    + intros r i w Hr Hi Hw Heq. rewrite Hviews1 in Hw.
      assert (i = i0).
      { apply (NoDup_lookup _ i i0 (ViewContainerRef.context v0) Hdistinct).
        - rewrite list_lookup_fmap, Hw. simpl. congruence.
        - rewrite list_lookup_fmap, Hv0. reflexivity. }
      subst i. apply Hnotin. rewrite Hi0, <- Hi.
      apply list_elem_of_fmap. exists r. split; [reflexivity | exact Hr].
Qed.

(** X14.  After a completed [_applyChanges] on a well-formed directive, every
    identity change it was given has reached its view: the context of the
    view at the record's [currentIndex] has the record's item as
    [$implicit], provided the records name distinct positions. *)
Theorem identity_changes_reach_the_views
    (changes : IterableChanges) (self self' : NgForOf) :
  well_formed self ->
  NoDup (currentIndex <$> identityChanges changes) ->
  _applyChanges changes self = (Normal tt, self') ->
  forall record, record ∈ identityChanges changes ->
    exists i view c,
      currentIndex record = Some i
      /\ ViewContainerRef.views (_viewContainer self') !! i = Some view
      /\ heap self' !! ViewContainerRef.context view = Some c
      /\ implicit c = item record.
Proof.
  intros Hwf Hnd Hrun.
  unfold _applyChanges in Hrun.
  apply bind_Normal_inv in Hrun as ([] & s1 & Hops & Hrun).
  apply bind_Normal_inv in Hrun as (s1' & s1'' & [= <- <-] & Hrun).
  apply bind_Normal_inv in Hrun as ([] & s2 & Hloop & Hids).
  pose proof (steady_for_each _ (operations changes)
                steady_forEachOperation_callback self Hwf) as [Hwf1 _].
  rewrite Hops in Hwf1. simpl in Hwf1.
  pose proof (steady_for_each _ (seq 0 (ViewContainerRef.length (_viewContainer s1)))
                (steady_renumber (ViewContainerRef.length (_viewContainer s1)))
                s1 Hwf1) as [Hwf2 _].
  rewrite Hloop in Hwf2. simpl in Hwf2.
  exact (identity_loop _ _ _ Hwf2 Hnd Hids).
Qed.

Lemma identity_changes_reach_the_views_witness :
  exists i view c,
    Some 0%nat = Some i
    /\ ViewContainerRef.views
         (_viewContainer
            (state_after (_applyChanges Samples.two_rows Samples.fresh_NgForOf)))
         !! i = Some view
    /\ heap (state_after (_applyChanges Samples.two_rows Samples.fresh_NgForOf))
         !! ViewContainerRef.context view = Some c
    /\ implicit c = JsString "A".
Proof.
  assert (Hwf : well_formed Samples.fresh_NgForOf) by (split; constructor).
  assert (Hnd : NoDup (currentIndex <$> identityChanges Samples.two_rows)).
  { apply NoDup_singleton. }
  assert (Hrun : _applyChanges Samples.two_rows Samples.fresh_NgForOf
                 = (Normal tt,
                    state_after (_applyChanges Samples.two_rows Samples.fresh_NgForOf)))
    by (vm_compute; reflexivity).
  apply (identity_changes_reach_the_views _ _ _ Hwf Hnd Hrun
           {| item := JsString "A"; previousIndex := Some 0%nat;
              currentIndex := Some 0%nat |}).
  left.
Defined.

(** X15.  In every reachable directive the views hold pairwise distinct
    context objects, each of them allocated by the directive: no two rows
    ever share a context. *)
Theorem reachable_views_have_their_own_context (self : NgForOf) :
  reachable self ->
  NoDup (ViewContainerRef.context <$> ViewContainerRef.views (_viewContainer self))
  /\ Forall (fun v => (ViewContainerRef.context v < List.length (heap self))%nat)
            (ViewContainerRef.views (_viewContainer self)).
Proof. apply reachable_well_formed. Qed.

Lemma reachable_views_have_their_own_context_witness :
  NoDup (ViewContainerRef.context
           <$> ViewContainerRef.views (_viewContainer Samples.NgForOf_with_two_rows)).
Proof.
  apply (reachable_views_have_their_own_context Samples.NgForOf_with_two_rows).
  apply (reachable_ngDoCheck Samples.dev_env),
        (reachable_set_ngForOf (JsArray [JsString "a"; JsString "b"])),
        reachable_constructor.
Defined.

(** *** The first rendering *)

(** An insertion at the end of the container. *)
Lemma insertion_at_end (k : nat) (x : JsValue) (s : NgForOf) :
  truthy (_template s) = true ->
  List.length (ViewContainerRef.views (_viewContainer s)) = k ->
  exists s1,
    forEachOperation_callback (insertion_at k x) s = (Normal tt, s1)
    /\ view_shape <$> ViewContainerRef.views (_viewContainer s1)
       = (view_shape <$> ViewContainerRef.views (_viewContainer s))
         ++ [(_template s, List.length (heap s))]
    /\ heap s1
       = heap s ++ [{| implicit := x; ngForOf := _ngForOf s; index := -1; count := -1 |}]
    /\ _template s1 = _template s
    /\ _ngForOf s1 = _ngForOf s.
Proof.
  intros Htemplate Hk. unfold forEachOperation_callback, insertion_at. simpl.
  unfold bind, this, new_NgForOfContext, viewContainer, zoom,
    ViewContainerRef.createEmbeddedView, ret. simpl.
  rewrite Htemplate, Hk, Nat.leb_refl. eexists. split; [reflexivity |]. simpl.
  unfold ViewContainerRef.insert_at. rewrite <- Hk, firstn_all, drop_all.
  rewrite fmap_app. auto.
Qed.

(** Insertions one after the other, each at the end. *)
Lemma insertions_at_end (items : list JsValue) :
  forall (k : nat) (s : NgForOf),
    truthy (_template s) = true ->
    List.length (ViewContainerRef.views (_viewContainer s)) = k ->
    exists s1,
      for_each forEachOperation_callback
        (imap (fun i => insertion_at (k + i)) items) s = (Normal tt, s1)
      /\ view_shape <$> ViewContainerRef.views (_viewContainer s1)
         = (view_shape <$> ViewContainerRef.views (_viewContainer s))
           ++ imap (fun i _ => (_template s, (List.length (heap s) + i)%nat)) items
      /\ heap s1
         = heap s
           ++ ((fun x => {| implicit := x; ngForOf := _ngForOf s;
                            index := -1; count := -1 |}) <$> items)
      /\ _template s1 = _template s
      /\ _ngForOf s1 = _ngForOf s.
Proof.
  induction items as [| x items IH]; intros k s Htemplate Hk.
  - exists s. simpl. rewrite !app_nil_r. auto.
  - rewrite imap_cons. simpl for_each.
    destruct (insertion_at_end (k + 0) x s) as (s1 & Hrun & Hviews & Hheap & Ht & Hv);
      [exact Htemplate | lia |].
    destruct (IH (S k) s1) as (s2 & Hrun2 & Hviews2 & Hheap2 & Ht2 & Hv2).
    { rewrite Ht. exact Htemplate. }
    { rewrite <- (length_fmap view_shape), Hviews, length_app, length_fmap.
      simpl. lia. }
    exists s2. rewrite (bind_Normal _ _ _ _ _ Hrun).
    split.
    { rewrite <- Hrun2. f_equal. apply imap_ext. intros i y _. simpl.
      f_equal. lia. }
    split.
    { rewrite Hviews2, Hviews, Hheap, Ht, imap_cons, length_app, <- app_assoc.
      simpl. f_equal. f_equal; [f_equal; lia |].
      apply imap_ext. intros i y _. simpl. f_equal. lia. }
    split.
    { rewrite Hheap2, Hheap, Hv, fmap_cons, <- app_assoc. reflexivity. }
    split; congruence.
Qed.

Lemma implicit_kept_refl s : implicit_kept s s.
Proof. intros a c H. eauto. Qed.

Lemma implicit_kept_trans a b c :
  implicit_kept a b -> implicit_kept b c -> implicit_kept a c.
Proof.
  intros Hab Hbc r x Hx.
  destruct (Hab r x Hx) as (y & Hy & Hxy).
  destruct (Hbc r y Hy) as (z & Hz & Hyz).
  exists z. split; [exact Hz | congruence].
Qed.

Lemma implicit_kept_alter (f : NgForOf -> NgForOfContext -> NgForOfContext)
    (address : ViewContainerRef.ObjRef) :
  (forall s c, implicit (f s c) = implicit c) ->
  respects implicit_kept
    (assign (fun self => with_heap (alter (f self) address (heap self)) self)).
Proof.
  intros Hf s a c Hc. unfold assign, state_after. simpl.
  destruct (decide (address = a)) as [-> | Hne].
  - rewrite list_lookup_alter_eq, Hc. simpl. eauto.
  - rewrite list_lookup_alter_ne by exact Hne. eauto.
Qed.

Lemma implicit_kept_renumber ilen i : respects implicit_kept (renumber ilen i).
Proof.
  unfold renumber.
  apply respects_bind; [apply implicit_kept_trans | | intros [v |]].
  - intros s a c Hc. rewrite viewContainer_state. simpl. eauto.
  - apply respects_bind; [apply implicit_kept_trans | | intros _].
    { apply (implicit_kept_alter (fun _ => set_index (Z.of_nat i))). reflexivity. }
    apply respects_bind; [apply implicit_kept_trans | | intros _].
    { apply (implicit_kept_alter (fun _ => set_count (Z.of_nat ilen))). reflexivity. }
    apply (implicit_kept_alter (fun self => set_ngForOf_field (_ngForOf self))).
    reflexivity.
  - apply respects_throw, implicit_kept_refl.
Qed.

(** X16.  The first rendering.  Given the changes by which a differ reports
    a list of new items, one insertion per item at its position, a
    directive that has a template and whose container is empty ends with one
    view per item, in the order of the items, each made from the directive's
    template on a context of its own that carries the item as [$implicit],
    the iterable as [ngForOf], the position as [index] and the number of
    items as [count]; and the call completes. *)
Theorem first_rendering (items : list JsValue) (self : NgForOf) :
  truthy (_template self) = true ->
  ViewContainerRef.views (_viewContainer self) = [] ->
  let changes := {| operations := imap insertion_at items; identityChanges := [] |} in
  let after := state_after (_applyChanges changes self) in
  outcome (_applyChanges changes self) = Normal tt
  /\ ViewContainerRef.length (_viewContainer after) = List.length items
  /\ forall i x,
      items !! i = Some x ->
      exists view,
        ViewContainerRef.views (_viewContainer after) !! i = Some view
        /\ ViewContainerRef.view_template view = _template self
        /\ heap after !! ViewContainerRef.context view
           = Some {| implicit := x; ngForOf := _ngForOf self;
                     index := Z.of_nat i; count := Z.of_nat (List.length items) |}.
Proof.
  intros Htemplate Hempty changes after.
  destruct (insertions_at_end items 0 self) as (s1 & Hops & Hviews1 & Hheap1 & Ht1 & Hv1).
  { exact Htemplate. }
  { rewrite Hempty. reflexivity. }
  rewrite Hempty in Hviews1. simpl in Hviews1.
  assert (Hwf : well_formed self).
  { unfold well_formed. rewrite Hempty. split; constructor. }
  pose proof (steady_for_each _ (imap (fun i => insertion_at (0 + i)) items)
                steady_forEachOperation_callback self Hwf) as [Hwf1 _].
  rewrite Hops in Hwf1. simpl in Hwf1.
  assert (Hlen1 : ViewContainerRef.length (_viewContainer s1) = List.length items).
  { unfold ViewContainerRef.length.
    rewrite <- (length_fmap view_shape), Hviews1, length_imap. reflexivity. }
  destruct (renumber_loop (ViewContainerRef.length (_viewContainer s1))
              (ViewContainerRef.length (_viewContainer s1)) 0 s1 Hwf1)
    as (s2 & Hloop & Hviews2 & Hvalue2 & _ & _ & Hnum); [reflexivity |].
  pose proof (respects_for_each implicit_kept implicit_kept_refl implicit_kept_trans
                _ (seq 0 (ViewContainerRef.length (_viewContainer s1)))
                (implicit_kept_renumber (ViewContainerRef.length (_viewContainer s1)))
                s1) as Hkept.
  rewrite Hloop in Hkept. unfold state_after in Hkept. simpl in Hkept.
  assert (Hrun : _applyChanges changes self = (Normal tt, s2)).
  { unfold _applyChanges, changes. simpl operations. simpl identityChanges.
    rewrite (bind_Normal _ _ _ _ _ Hops).
    rewrite (bind_Normal this _ s1 s1 s1 eq_refl).
    rewrite (bind_Normal _ _ _ _ _ Hloop). reflexivity. }
  subst after. rewrite Hrun. simpl.
  split; [reflexivity |].
  split; [unfold ViewContainerRef.length in *; congruence |].
  intros i x Hx.
  assert (Hshape : (view_shape <$> ViewContainerRef.views (_viewContainer s2)) !! i
                   = Some (_template self, (List.length (heap self) + i)%nat)).
  { rewrite Hviews2, Hviews1, list_lookup_imap, Hx. reflexivity. }
  rewrite list_lookup_fmap in Hshape.
  destruct (ViewContainerRef.views (_viewContainer s2) !! i) as [view |] eqn:Hview;
    [| discriminate Hshape].
  injection Hshape as Hmade Hcontext.
  exists view. split; [reflexivity |]. split; [exact Hmade |].
  assert (Hi : (0 <= i < 0 + ViewContainerRef.length (_viewContainer s1))%nat).
  { rewrite Hlen1. apply lookup_lt_Some in Hx. lia. }
  destruct (Hnum i Hi view Hview) as (c & Hc & Hindex & Hcount & Hof).
  assert (Hc1 : heap s1 !! ViewContainerRef.context view
                = Some {| implicit := x; ngForOf := _ngForOf self;
                          index := -1; count := -1 |}).
  { rewrite Hcontext, Hheap1, lookup_app_r by lia.
    replace (List.length (heap self) + i - List.length (heap self))%nat with i by lia.
    rewrite list_lookup_fmap, Hx. reflexivity. }
  destruct (Hkept _ _ Hc1) as (c' & Hc' & Himplicit).
  unfold ViewContainerRef.ObjRef in *.
  assert (c' = c) by congruence. subst c'.
  rewrite Hc. f_equal. destruct c as [ci cf cx cn]. simpl in *.
  rewrite Hlen1 in Hcount. congruence.
Qed.

Lemma first_rendering_witness :
  ViewContainerRef.length
    (_viewContainer
       (state_after
          (_applyChanges
             {| operations := imap insertion_at [JsString "a"; JsString "b"; JsString "c"];
                identityChanges := [] |}
             Samples.fresh_NgForOf)))
  = 3%nat.
Proof.
  apply (first_rendering [JsString "a"; JsString "b"; JsString "c"]
           Samples.fresh_NgForOf);
    reflexivity.
Defined.

(** *** The check as a whole *)



Lemma differ_kept_apply : respects differ_kept ngDoCheck_apply.
Proof.
  apply respects_ngDoCheck_apply; unfold differ_kept; simpl.
  - intros s [st f] ->. eauto.
  - intros a b c Hab Hbc d Hd.
    destruct (Hab d Hd) as [st Hb]. destruct (Hbc _ Hb) as [st' Hc].
    exists st'. exact Hc.
  - intros vc s [st f] ->. eauto.
  - intros h s [st f] ->. eauto.
  - intros s d st Hd d' Hd'. rewrite Hd in Hd'. injection Hd' as <-. eauto.
Qed.

(** X19.  The differ is made from the registry, with the [trackBy] function
    of that moment: when the dirty flag is set, no differ exists, the
    [ngForOf] value is truthy, the registry finds a factory for it and the
    factory, given the current [ngForTrackBy], returns a differ, then after
    [ngDoCheck], however it ends, the directive holds that differ. *)
Theorem ngDoCheck_creates_the_differ (env : Globals) (self : NgForOf)
    (factory : IterableDifferFactory) (d : IterableDiffer) :
  _ngForOfDirty self = true ->
  _differ self = None ->
  truthy (_ngForOf self) = true ->
  find (_differs self) (_ngForOf self) = Returned factory ->
  create factory (get_ngForTrackBy self) = Returned d ->
  exists st,
    _differ (state_after (ngDoCheck env self))
    = Some {| differ_state := st; differ_diff := differ_diff d |}.
Proof.
  intros Hdirty Hdiffer Htruthy Hfind Hcreate.
  assert (Hlookup : ngDoCheck_lookup env self
                    = (Normal tt, with_differ (Some d) (with_ngForOfDirty false self))).
  { unfold ngDoCheck_lookup.
    rewrite (bind_Normal this _ self self self eq_refl), Hdirty.
    rewrite (bind_Normal (assign (with_ngForOfDirty false)) _ self
               (with_ngForOfDirty false self) tt eq_refl).
    rewrite Hdiffer, Htruthy. simpl.
    assert (Hfc : find_and_create (_ngForOf self) (with_ngForOfDirty false self)
                  = (Normal tt, with_differ (Some d) (with_ngForOfDirty false self))).
    { unfold find_and_create, lift, bind, this, assign. simpl.
      unfold get_ngForTrackBy in *. simpl.
      rewrite Hfind. simpl. rewrite Hcreate. reflexivity. }
    unfold try_catch. destruct (dev_mode env); rewrite Hfc; reflexivity. }
  rewrite ngDoCheck_statements, (bind_Normal _ _ _ _ _ Hlookup).
  apply (differ_kept_apply (with_differ (Some d) (with_ngForOfDirty false self))).
  reflexivity.
Qed.

Lemma ngDoCheck_creates_the_differ_witness :
  exists st,
    _differ Samples.NgForOf_with_two_rows
    = Some {| differ_state := st;
              differ_diff := differ_diff Samples.first_time_differ |}.
Proof.
  apply (ngDoCheck_creates_the_differ Samples.dev_env
           (state_after
              (set_ngForOf (JsArray [JsString "a"; JsString "b"]) Samples.fresh_NgForOf))
           {| create := fun _ => Returned Samples.first_time_differ |}
           Samples.first_time_differ);
    reflexivity.
Defined.

(** A completed [_applyChanges] numbers every row. *)
Lemma applyChanges_rows_numbered (changes : IterableChanges) (self self' : NgForOf) :
  well_formed self ->
  _applyChanges changes self = (Normal tt, self') ->
  rows_numbered self'.
Proof.
  intros Hwf Hrun. unfold _applyChanges in Hrun.
  apply bind_Normal_inv in Hrun as ([] & s1 & Hops & Hrun).
  apply bind_Normal_inv in Hrun as (s1' & s1'' & [= <- <-] & Hrun).
  apply bind_Normal_inv in Hrun as ([] & s2 & Hloop & Hids).
  pose proof (steady_for_each _ (operations changes)
                steady_forEachOperation_callback self Hwf) as [Hwf1 _].
  rewrite Hops in Hwf1. simpl in Hwf1.
  destruct (renumber_loop (ViewContainerRef.length (_viewContainer s1))
              (ViewContainerRef.length (_viewContainer s1)) 0 s1 Hwf1)
    as (s2' & Hloop' & Hviews2 & _ & _ & _ & Hnum); [reflexivity |].
  rewrite Hloop in Hloop'. injection Hloop' as <-.
  pose proof (relabels_for_each _ (identityChanges changes)
                relabels_forEachIdentityChange_callback s2) as [Hviews3 Hsame].
  rewrite Hids in Hviews3, Hsame. simpl in Hviews3, Hsame.
  intros i view Hview.
  assert (Hlen : ViewContainerRef.length (_viewContainer self')
                 = ViewContainerRef.length (_viewContainer s1)).
  { unfold ViewContainerRef.length. congruence. }
  assert (Hi : (i < ViewContainerRef.length (_viewContainer s1))%nat).
  { rewrite <- Hlen. eapply lookup_lt_Some, Hview. }
  rewrite Hviews3 in Hview.
  destruct (Hnum i ltac:(lia) view Hview) as (c & Hc & Hindex & Hcount & _).
  destruct (Hsame _ _ Hc) as (c' & Hc' & Hindex' & Hcount' & _).
  exists c'. rewrite Hlen. split; [exact Hc' |]. split; congruence.
Qed.

Lemma rows_numbered_same_rows (s s' : NgForOf) :
  same_rows s s' -> rows_numbered s -> rows_numbered s'.
Proof. intros [Hvc Hheap] H. unfold rows_numbered. rewrite Hvc, Hheap. exact H. Qed.

Lemma well_formed_same_rows (s s' : NgForOf) :
  same_rows s s' -> well_formed s -> well_formed s'.
Proof. intros [Hvc Hheap] H. unfold well_formed. rewrite Hvc, Hheap. exact H. Qed.

Lemma same_rows_lookup env : respects same_rows (ngDoCheck_lookup env).
Proof.
  apply respects_ngDoCheck_lookup; unfold same_rows; simpl; intros; try tauto.
  intuition congruence.
Qed.

Lemma settled_reachable (self : NgForOf) : settled self -> reachable self.
Proof.
  induction 1 as [t ds | env u self self' _ IH Hrun].
  - apply reachable_constructor.
  - replace self' with (state_after (use env u self)) by (rewrite Hrun; reflexivity).
    destruct u; simpl.
    + apply reachable_set_ngForOf, IH.
    + apply reachable_set_ngForTrackBy, IH.
    + apply reachable_set_ngForTemplate, IH.
    + apply reachable_ngDoCheck, IH.
Qed.

(** A completed [ngDoCheck] keeps the rows numbered. *)
Lemma ngDoCheck_rows_numbered env (self self' : NgForOf) :
  well_formed self -> rows_numbered self ->
  ngDoCheck env self = (Normal tt, self') ->
  rows_numbered self'.
Proof.
  intros Hwf Hrows Hrun. rewrite ngDoCheck_statements in Hrun.
  apply bind_Normal_inv in Hrun as ([] & s1 & Hlookup & Happly).
  pose proof (same_rows_lookup env self) as Hsame.
  rewrite Hlookup in Hsame. unfold state_after in Hsame. simpl in Hsame.
  apply (rows_numbered_same_rows _ _ Hsame) in Hrows.
  apply (well_formed_same_rows _ _ Hsame) in Hwf.
  unfold ngDoCheck_apply in Happly.
  apply bind_Normal_inv in Happly as (s1' & s1'' & [= <- <-] & Happly).
  destruct (_differ s1) as [d |]; [| injection Happly as <-; exact Hrows].
  apply bind_Normal_inv in Happly as (changes & s2 & Hdiff & Happly).
  assert (Hsame2 : same_rows s1 s2).
  { unfold zoom, diff in Hdiff.
    destruct (differ_diff d (_ngForOf s1) (differ_state d)) as [r st].
    injection Hdiff as _ <-. split; reflexivity. }
  apply (rows_numbered_same_rows _ _ Hsame2) in Hrows.
  apply (well_formed_same_rows _ _ Hsame2) in Hwf.
  destruct changes as [changes |]; [| injection Happly as <-; exact Hrows].
  exact (applyChanges_rows_numbered _ _ _ Hwf Happly).
Qed.

(** X20.  As long as no use of the directive has thrown, between any two
    uses every row knows where it is: for every position [i] of the view
    container, the context of the view at [i] has [index = i] and [count]
    equal to the number of views. *)
Theorem rows_stay_numbered (self : NgForOf) : settled self -> rows_numbered self.
Proof.
  induction 1 as [t ds | env u self self' Hsettled IH Hrun].
  - intros i view Hview. discriminate Hview.
  - destruct u as [value | fn | value |]; simpl in Hrun.
    + injection Hrun as <-. apply (rows_numbered_same_rows self); [| exact IH].
      split; reflexivity.
    + apply (rows_numbered_same_rows self); [| exact IH].
      destruct (set_ngForTrackBy_spec env fn self) as [(e & _ & H) | [H | H]];
        rewrite H in Hrun; try discriminate Hrun; injection Hrun as <-;
        split; reflexivity.
    + apply (rows_numbered_same_rows self); [| exact IH].
      replace self' with (state_after (set_ngForTemplate value self))
        by (rewrite Hrun; reflexivity).
      unfold set_ngForTemplate, assign, ret, state_after.
      destruct (truthy value); split; reflexivity.
    + apply (ngDoCheck_rows_numbered env self self'); [| exact IH | exact Hrun].
      apply reachable_well_formed, settled_reachable, Hsettled.
Qed.

Lemma rows_stay_numbered_witness : rows_numbered Samples.NgForOf_with_two_rows.
Proof.
  apply rows_stay_numbered.
  apply (settled_use Samples.dev_env ngDoCheck_call
           (state_after
              (set_ngForOf (JsArray [JsString "a"; JsString "b"]) Samples.fresh_NgForOf))).
  - apply (settled_use Samples.dev_env
             (ngForOf_input (JsArray [JsString "a"; JsString "b"]))
             Samples.fresh_NgForOf).
    + apply settled_constructor.
    + reflexivity.
  - vm_compute. reflexivity.
Defined.

End ng_for_of_spec.

(* ===================================================================== *)
(** * Properties of sass-loader/dist/options.json *)
(* ===================================================================== *)

Module sass_loader_options_spec.

Import sass_loader_options.

(** The search through the declared properties is [declared_schema]. *)
Lemma member_ok_eq (additional : option bool) (member : string * JsValue)
    (declared : list (string * Schema)) :
  (fix member_ok (ps : list (string * Schema)) : bool :=
     match ps with
     | [] => default true additional
     | (k, sub) :: ps' =>
         if String.eqb k (fst member)
         then validate sub (snd member)
         else member_ok ps'
     end) declared
  = match declared_schema (fst member) declared with
    | Some sub => validate sub (snd member)
    | None => default true additional
    end.
Proof.
  induction declared as [| [k sub] declared IH]; simpl; [reflexivity |].
  destruct (String.eqb k (fst member)); [reflexivity | exact IH].
Qed.

(** [validate], keyword by keyword. *)
Lemma validate_eq (s : Schema) (data : JsValue) :
  validate s data =
    match type s with Some t => has_type t data | None => true end
    && match data with
       | JsObject members =>
           forallb (fun member : string * JsValue =>
             match properties s with
             | Some declared =>
                 match declared_schema (fst member) declared with
                 | Some sub => validate sub (snd member)
                 | None => default true (additionalProperties s)
                 end
             | None => default true (additionalProperties s)
             end) members
       | _ => true
       end
    && match anyOf s with
       | Some alts => existsb (fun a => validate a data) alts
       | None => true
       end
    && match instanceof s with Some c => is_instance c data | None => true end.
Proof.
  destruct s as [ti de li ty props addl alts cls]. simpl.
  apply (f_equal2 andb); [| reflexivity].
  apply (f_equal2 andb); [apply (f_equal2 andb); [reflexivity |] |].
  - destruct data as [| | | | | | | | | members]; try reflexivity.
    induction members as [| member members IH]; simpl; [reflexivity |].
    rewrite IH. f_equal.
    destruct props as [declared |]; [apply member_ok_eq | reflexivity].
  - destruct alts as [alts |]; [| reflexivity].
    induction alts as [| a alts IH]; simpl; [reflexivity |].
    rewrite IH. reflexivity.
Qed.

Lemma declared_schema_None (name : string) (ps : list (string * Schema)) :
  name ∉ (fst <$> ps) -> declared_schema name ps = None.
Proof.
  induction ps as [| [k sub] ps IH]; simpl; [reflexivity |].
  intros Hnot. destruct (String.eqb_spec k name) as [-> | Hne].
  - exfalso. apply Hnot. left.
  - apply IH. intros Hin. apply Hnot. right. exact Hin.
Qed.

(** A schema that only says [type: boolean] accepts the booleans and nothing
    else. *)
Lemma validate_boolean (s : Schema) (x : JsValue) :
  type s = Some boolean_type -> properties s = None ->
  additionalProperties s = None -> anyOf s = None -> instanceof s = None ->
  validate s x = true <-> exists b, x = JsBoolean b.
Proof.
  intros Hty Hps Hadd Hany Hcls. rewrite validate_eq, Hty, Hps, Hadd, Hany, Hcls.
  destruct x; simpl; split; try discriminate; eauto; intros [b Hb]; discriminate.
Qed.

(** C7.  The sass-loader options schema declares exactly the six properties
    [implementation], [sassOptions], [additionalData], [sourceMap],
    [webpackImporter] and [warnRuleAsWarning], with [additionalProperties]
    set to [false]; so an options object with a member named otherwise does
    not validate, and an options object that validates holds booleans, if
    anything, under [sourceMap], [webpackImporter] and [warnRuleAsWarning],
    whose schemas accept exactly the booleans. *)
Theorem options_schema_closed :
  declared_names options_json
    = ["implementation"; "sassOptions"; "additionalData";
       "sourceMap"; "webpackImporter"; "warnRuleAsWarning"]
  /\ additionalProperties options_json = Some false
  /\ (forall (members : list (string * JsValue)) (k : string) (x : JsValue),
        (k, x) ∈ members ->
        k ∉ declared_names options_json ->
        validate options_json (JsObject members) = false)
  /\ (forall (members : list (string * JsValue)) (k : string) (x : JsValue),
        k ∈ ["sourceMap"; "webpackImporter"; "warnRuleAsWarning"] ->
        (k, x) ∈ members ->
        validate options_json (JsObject members) = true ->
        exists b, x = JsBoolean b)
  /\ (forall (k : string) (x : JsValue),
        k ∈ ["sourceMap"; "webpackImporter"; "warnRuleAsWarning"] ->
        exists sub,
          declared_schema k (default [] (properties options_json)) = Some sub
          /\ (validate sub x = true <-> exists b, x = JsBoolean b)).
Proof.
  assert (Hbool : forall (k : string) (x : JsValue),
             k ∈ ["sourceMap"; "webpackImporter"; "warnRuleAsWarning"] ->
             exists sub,
               declared_schema k (default [] (properties options_json)) = Some sub
               /\ (validate sub x = true <-> exists b, x = JsBoolean b)).
  { intros k x Hk.
    repeat (apply elem_of_cons in Hk as [-> | Hk]);
      [| | | apply elem_of_nil in Hk; destruct Hk];
      (eexists; split; [reflexivity | apply validate_boolean; reflexivity]). }
  split; [reflexivity |]. split; [reflexivity |]. split; [| split].
  - intros members k x Hin Hnot.
    rewrite validate_eq. simpl type. simpl properties. simpl additionalProperties.
    simpl anyOf. simpl instanceof. cbv iota. rewrite !andb_true_r.
    simpl has_type. cbv iota. rewrite andb_true_l.
    apply not_true_is_false. intros Hall.
    rewrite forallb_forall in Hall. apply list_elem_of_In in Hin.
    specialize (Hall _ Hin). simpl fst in Hall. simpl snd in Hall.
    rewrite (declared_schema_None k) in Hall by exact Hnot.
    discriminate.
  - intros members k x Hk Hin Hvalid.
    destruct (Hbool k x Hk) as (sub & Hsub & Hiff). apply Hiff.
    rewrite validate_eq in Hvalid. simpl type in Hvalid. simpl properties in Hvalid.
    simpl additionalProperties in Hvalid. simpl anyOf in Hvalid.
    simpl instanceof in Hvalid. cbv iota in Hvalid.
    rewrite !andb_true_r in Hvalid. simpl has_type in Hvalid. cbv iota in Hvalid.
    rewrite andb_true_l in Hvalid.
    rewrite forallb_forall in Hvalid. apply list_elem_of_In in Hin.
    specialize (Hvalid _ Hin). simpl fst in Hvalid. simpl snd in Hvalid.
    simpl properties in Hsub. simpl default in Hsub.
    rewrite Hsub in Hvalid. exact Hvalid.
  - exact Hbool.
Qed.

Lemma options_schema_closed_witness :
  validate options_json
    (JsObject [("sourceMap", JsBoolean true); ("outputStyle", JsString "compressed")])
    = false
  /\ exists b, JsBoolean true = JsBoolean b.
Proof.
  split.
  - apply (proj1 (proj2 (proj2 options_schema_closed))
             _ "outputStyle" (JsString "compressed")).
    + right. left.
    + vm_compute. intros H.
      repeat (apply elem_of_cons in H as [H | H]; [discriminate |]).
      apply elem_of_nil in H. exact H.
  - apply (proj1 (proj2 (proj2 (proj2 options_schema_closed)))
             [("sourceMap", JsBoolean true)] "sourceMap" (JsBoolean true)).
    + left.
    + left.
    + reflexivity.
Defined.

End sass_loader_options_spec.

Module sass_loader_options_more.

Import sass_loader_options sass_loader_options_spec.

Lemma forallb_true {A} (l : list A) : forallb (fun _ => true) l = true.
Proof. induction l; simpl; auto. Qed.

Lemma forallb_pointwise {A} (f g : A -> bool) (l : list A) :
  (forall x, f x = g x) -> forallb f l = forallb g l.
Proof.
  intros H. induction l as [| x l IH]; simpl; [reflexivity |].
  rewrite H, IH. reflexivity.
Qed.

(** The declared schema of each option says what [option_allowed] says. *)
Lemma member_allowed (k : string) (x : JsValue) :
  match declared_schema k (default [] (properties options_json)) with
  | Some sub => validate sub x
  | None => default true (additionalProperties options_json)
  end = option_allowed k x.
Proof.
  unfold option_allowed. cbn -[String.eqb validate has_type is_instance].
  destruct (String.eqb "implementation" k);
    [destruct x; simpl; rewrite ?forallb_true; reflexivity |].
  destruct (String.eqb "sassOptions" k);
    [destruct x; simpl; rewrite ?forallb_true; reflexivity |].
  destruct (String.eqb "additionalData" k);
    [destruct x; simpl; rewrite ?forallb_true; reflexivity |].
  destruct (String.eqb "sourceMap" k);
    [destruct x; simpl; rewrite ?forallb_true; reflexivity |].
  destruct (String.eqb "webpackImporter" k);
    [destruct x; simpl; rewrite ?forallb_true; reflexivity |].
  destruct (String.eqb "warnRuleAsWarning" k);
    [destruct x; simpl; rewrite ?forallb_true; reflexivity |].
  reflexivity.
Qed.

(** X17.  What the options schema accepts, in full: a value validates exactly
    when it is an object each of whose members is [implementation] holding a
    string or an object, [sassOptions] holding an object (with any members)
    or a function, [additionalData] holding a string or a function, or one
    of [sourceMap], [webpackImporter], [warnRuleAsWarning] holding a boolean.
    No option is required: the empty object validates; and nothing that is
    not an object does. *)
Theorem options_schema_accepts (data : JsValue) :
  validate options_json data
  = match data with
    | JsObject members =>
        forallb (fun member => option_allowed (fst member) (snd member)) members
    | _ => false
    end.
Proof.
  rewrite validate_eq.
  destruct data as [| | | | | | | | | members]; try reflexivity.
  simpl type. simpl has_type. simpl anyOf. simpl instanceof. cbv iota.
  rewrite !andb_true_r, andb_true_l.
  apply forallb_pointwise. intros member.
  apply (member_allowed (fst member) (snd member)).
Qed.

End sass_loader_options_more.
